(** * WhiteBox: launcher hand-off and kernel main loop

  A shallow embedding of the parts of the WhiteBox sources that carry the
  module-loading protocol and the main message loop:

  - [kernel/main_win.cc]            : [DispatchMessages], [KernelMain] (Windows)
  - [whitebox-kernel/main.cc]       : [DispatchMessages], [KernelMain] (SDL)
  - [apps/half-life-2/hl2_exe_main_win.cc] : [BootmgrStartup], [WinMain]
  - the Mac launcher [main]
  - [base/include/scoped_new_handler.h]    : [ScopedNewHandler]
  - the input queue between the window procedure and the loop

  Effects are made explicit: every function that talks to the platform
  appends to a trace of events, and input that arrives from the platform
  (messages, clock readings, load results) is supplied as a script. *)

From Stdlib Require Import ZArith Lia Sorted.
From stdpp Require Import base option list strings pretty gmap.

Local Open Scope Z_scope.

(** ** C++ integers and error codes *)

Module Cxx.

(** [static_cast<int>(x)]: reduction modulo 2^32 into the signed range. *)
Definition static_cast_int (x : Z) : Z :=
  (x + 2 ^ 31) mod 2 ^ 32 - 2 ^ 31.

(** Conversion of an [int] to the 64-bit unsigned [WPARAM] ([UINT_PTR]). *)
Definition static_cast_WPARAM (x : Z) : Z := x mod 2 ^ 64.


(** [std::error_code]: an integer value inside a category. *)
Record error_code := mk_error_code {
  value : Z;
  category : string
}.

(** The line feed written [\n] in a C++ literal. *)
Definition LF : string := String (Ascii.ascii_of_nat 10) EmptyString.

(** [explicit operator bool()] of [std::error_code]. *)
Definition error_code_bool (rc : error_code) : bool :=
  negb (value rc =? 0).

(** [std2::result<T>], a [std::variant<T, std::error_code>]. *)
Inductive result (T : Type) : Type :=
| Ok (v : T)
| Err (rc : error_code).
Arguments Ok {T} v.
Arguments Err {T} rc.

Definition get_result {T} (r : result T) : option T :=
  match r with Ok v => Some v | Err _ => None end.

Definition get_error {T} (r : result T) : option error_code :=
  match r with Ok _ => None | Err rc => Some rc end.

End Cxx.

(** ** g3log records *)

Module G3Log.

Inductive Level := INFO | WARNING | FATAL.

Record LogLine := mk_line {
  level : Level;
  text : string
}.

Definition is_warning (l : LogLine) : bool :=
  match level l with WARNING => true | _ => false end.

End G3Log.

(** ** Data that crosses the boundaries, events, and the effect monad *)

Module Sys.
Import Cxx G3Log.

(** The two fields of the Win32 [MSG] the loop reads. *)
Record MSG := mk_MSG {
  message : Z;
  wParam : Z
}.

(** [SDL_Event]: the type tag and, for what else the union carries, one
    integer (for instance [SDL_UserEvent::code]). *)
Record SDL_Event := mk_SDL_Event {
  type : Z;
  code : Z
}.

(** [LookupWithFallback]: the localisation lookup, a map on strings. *)
Definition LookupWithFallback := string -> string.

(** A localised format string with its arguments still apart. *)
Record Text := mk_Text {
  format : string;
  arguments : list string
}.

Definition l18n (intl : LookupWithFallback) (s : string) : Text :=
  {| format := intl s; arguments := [] |}.

Definition l18n_fmt (intl : LookupWithFallback) (s : string)
    (args : list string) : Text :=
  {| format := intl s; arguments := args |}.

(** The icons of [FatalDialogContext] (absent on POSIX). *)
Record FatalDialogContext := mk_FatalDialogContext {
  context_icons : option (Z * Z)
}.

(** The arguments of [wb::ui::FatalDialog]. *)
Record FatalDialogPayload := mk_FatalDialogPayload {
  title : Text;
  rc : option error_code;
  remediation : Text;
  context : FatalDialogContext;
  detail : Text
}.

(** [wb::boot_manager::CommandLineFlags] as the launcher fills it. *)
Record CommandLineFlags := mk_CommandLineFlags {
  positional_flags : list string;
  insecure_allow_unsigned_module_target : bool
}.

(** The argument record handed to the boot manager entry point. *)
Record BootManagerArgs := mk_BootManagerArgs {
  instance : Z;
  args_values : list string;
  args_count : Z;
  app_description : string;
  show_window_flags : Z;
  main_icon_id : Z;
  small_icon_id : Z;
  command_line_flags : CommandLineFlags;
  intl : LookupWithFallback
}.

Inductive Event :=
| EvLog (l : LogLine)
| EvInitLog (command_line path : string)
| EvSetProgramUsageMessage (usage : string)
| EvSetDefaultDllDirectories (flags : Z)
| EvLoadLibrary (path : string) (flags : Z)
| EvGetAddress (name : string)
| EvBootmgrMain (args : BootManagerArgs)
| EvBootmgrMainPosix (argc : Z) (argv : list string)
| EvFatalDialog (p : FatalDialogPayload)
| EvSdlFatal (product : string) (rc : error_code) (what : string)
| EvShowWindow (flags : Z)
| EvUpdateWindow
| EvPump (m : MSG)
| EvWndProc (m : MSG)
| EvSimulateWorldStep (delta_time : Z)
| EvPollEvent (e : SDL_Event)
| EvSleep (ms : Z)
| EvExit (status : Z).

(** How a call ends: it returns a value, the process is ended inside it
    (a fatal dialog, [exit]), or the scripted input ran out before it
    came back. *)
Inductive Completion (A : Type) : Type :=
| Returns (a : A)
| Terminated
| Unfinished.
Arguments Returns {A} a.
Arguments Terminated {A}.
Arguments Unfinished {A}.

(** A call: what it did, in order, and how it ended. *)
Definition Proc (A : Type) : Type := list Event * Completion A.

Definition trace {A} (p : Proc A) : list Event := fst p.
Definition completion {A} (p : Proc A) : Completion A := snd p.

#[global] Instance Proc_ret : MRet Proc := fun A a => ([], Returns a).

#[global] Instance Proc_bind : MBind Proc := fun A B k m =>
  match snd m with
  | Returns a => (fst m ++ fst (k a), snd (k a))
  | Terminated => (fst m, Terminated)
  | Unfinished => (fst m, Unfinished)
  end.

Definition emit (e : Event) : Proc unit := ([e], Returns tt).

Definition G3LOG (lvl : Level) (txt : string) : Proc unit :=
  emit (EvLog {| level := lvl; text := txt |}).

Definition G3LOG_IF (lvl : Level) (cond : bool) (txt : string) : Proc unit :=
  (if cond then [EvLog {| level := lvl; text := txt |}] else [], Returns tt).

(** [G3PLOGE_IF] and [G3PLOGE2_IF]: log when the error code is set. *)
Definition G3PLOGE_IF (lvl : Level) (rc : option error_code) (txt : string)
    : Proc unit :=
  G3LOG_IF lvl
    (match rc with Some e => error_code_bool e | None => false end) txt.

(** Modelled from the spec: [wb::ui::FatalDialog] lives in
    [ui/fatal_dialog.h], outside the sources at hand.  It hands the
    structured payload over for rendering and the process ends there. *)
Definition FatalDialog {A} (ttl : Text) (e : option error_code)
    (hint : Text) (ctx : FatalDialogContext) (msg : Text) : Proc A :=
  ([EvFatalDialog {| title := ttl; rc := e; remediation := hint;
                     context := ctx; detail := msg |}], Terminated).

Definition is_get_address (e : Event) : bool :=
  match e with EvGetAddress _ => true | _ => false end.

Definition is_invoke (e : Event) : bool :=
  match e with EvBootmgrMain _ | EvBootmgrMainPosix _ _ => true | _ => false end.

Definition is_warning_log (e : Event) : bool :=
  match e with EvLog l => is_warning l | _ => false end.

End Sys.

(** ** The kernel's argument record ([kernel/main.h], as its users read it) *)

Module Kernel.

Record KernelArgs := mk_KernelArgs {
  instance : Z;
  app_description : string;
  show_window_flags : Z;
  main_icon_id : Z;
  small_icon_id : Z;
  main_window_width : Z;
  main_window_height : Z;
  intl : Sys.LookupWithFallback
}.

End Kernel.

(** ** The Windows message loop ([kernel/main_win.cc]) *)

Module Win32Loop.
Import Cxx G3Log Sys.

Definition WM_QUIT : Z := 0x0012.
Definition WM_KEYDOWN : Z := 0x0100.
Definition WM_MOUSEMOVE : Z := 0x0200.

(** [PostQuitMessage(nExitCode)] queues this message. *)
Definition PostQuitMessage (nExitCode : Z) : MSG :=
  {| message := WM_QUIT; wParam := static_cast_WPARAM nExitCode |}.

Definition is_quit (m : MSG) : bool := message m =? WM_QUIT.

(** The locals of [DispatchMessages] together with the effects so far. *)
Record Frame := mk_Frame {
  exit_code : Z;
  is_done : bool;
  loop_iteration_start_time : Z;
  effects : list Event
}.

Definition record (e : Event) (f : Frame) : Frame :=
  {| exit_code := exit_code f;
     is_done := is_done f;
     loop_iteration_start_time := loop_iteration_start_time f;
     effects := effects f ++ [e] |}.

(** The lambda [handle_quit_message], capturing [exit_code] and [is_done]. *)
Definition handle_quit_message (msg : MSG) (f : Frame) : Frame :=
  if message msg =? WM_QUIT then
    {| exit_code := static_cast_int (wParam msg);
       is_done := true;
       loop_iteration_start_time := loop_iteration_start_time f;
       effects := effects f |}
  else f.

Definition HasNoPreDispatchMessage (_ : MSG) : bool := false.

(** What the platform delivers to one pass of the loop: the messages
    pending when [Dispatch] is called, the abnormal condition [Dispatch]
    reports (if any), and the reading of [HighResolutionClock::now()]
    taken in that pass. *)
Record Burst := mk_Burst {
  pending : list MSG;
  dispatch_rc : option error_code;
  now : Z
}.

(** Modelled from the spec: [PeekMessageDispatcher::Dispatch] is declared in
    [ui/win/peek_message_dispatcher.h], which is not part of the sources at
    hand.  It pumps the pending messages in order; the pre-dispatch
    predicate may take a message away from normal handling; the second
    callback sees every pumped message; a quit message ends the burst and
    whatever was queued behind it is left alone. *)
Fixpoint pump (pre_dispatch : MSG -> bool)
    (post_dispatch : MSG -> Frame -> Frame)
    (msgs : list MSG) (f : Frame) : Frame :=
  match msgs with
  | [] => f
  | m :: rest =>
      let f1 := record (EvPump m) f in
      let f2 := if pre_dispatch m then f1 else record (EvWndProc m) f1 in
      let f3 := post_dispatch m f2 in
      if is_quit m then f3 else pump pre_dispatch post_dispatch rest f3
  end.

Definition Dispatch (pre_dispatch : MSG -> bool)
    (post_dispatch : MSG -> Frame -> Frame)
    (b : Burst) (f : Frame) : option error_code * Frame :=
  (dispatch_rc b, pump pre_dispatch post_dispatch (pending b) f).

Definition log_if (lvl : Level) (cond : bool) (txt : string) (f : Frame)
    : Frame :=
  if cond then record (EvLog {| level := lvl; text := txt |}) f else f.

Inductive Flow := Continue (f : Frame) | Break (f : Frame).

(** The body of [while (!is_done)]. *)
Definition loop_body (main_window_name : string) (b : Burst) (f : Frame)
    : Flow :=
  let '(maybe_dispatch_rc, f1) :=
    Dispatch HasNoPreDispatchMessage handle_quit_message b f in
  match maybe_dispatch_rc with
  | Some rc =>
      let f2 :=
        log_if WARNING (error_code_bool rc)
          ("Main window '" +:+ main_window_name +:+
           "' message dispatch thread received error.") f1 in
      Break {| exit_code := value rc;
               is_done := is_done f2;
               loop_iteration_start_time := loop_iteration_start_time f2;
               effects := effects f2 |}
  | None =>
      let now_time := now b in
      let delta_time := now_time - loop_iteration_start_time f1 in
      let f2 := {| exit_code := exit_code f1;
                   is_done := is_done f1;
                   loop_iteration_start_time := now_time;
                   effects := effects f1 |} in
      Continue (record (EvSimulateWorldStep delta_time) f2)
  end.

(** How the loop was left: by its own control flow, or because the script
    of bursts ran out while it was still turning. *)
Inductive LoopExit := Left (f : Frame) | StillRunning (f : Frame).

Fixpoint main_loop (main_window_name : string) (script : list Burst)
    (f : Frame) : LoopExit :=
  if is_done f then Left f
  else
    match script with
    | [] => StillRunning f
    | b :: rest =>
        match loop_body main_window_name b f with
        | Break f' => Left f'
        | Continue f' => main_loop main_window_name rest f'
        end
    end.

(** [DispatchMessages].  [start] is the clock reading taken before the
    loop is entered. *)
Definition DispatchMessages (main_window_name : string) (start : Z)
    (script : list Burst) : Proc Z :=
  let f0 := {| exit_code := 0; is_done := false;
               loop_iteration_start_time := start; effects := [] |} in
  match main_loop main_window_name script f0 with
  | StillRunning f => (effects f, Unfinished)
  | Left f =>
      let f' :=
        log_if WARNING (negb (exit_code f =? 0))
          ("Main window '" +:+ main_window_name +:+
           "' message dispatch thread exited with non success code " +:+
           pretty (exit_code f)) f in
      (effects f', Returns (exit_code f'))
  end.

Definition MakeFatalContext (kernel_args : Kernel.KernelArgs)
    : FatalDialogContext :=
  {| context_icons := Some (Kernel.main_icon_id kernel_args,
                            Kernel.small_icon_id kernel_args) |}.

(** What [KernelMain] gets from the platform: whether the main window
    could be made, the first clock reading, and the bursts. *)
Record Input := mk_Input {
  window_result : result unit;
  start_time : Z;
  bursts : list Burst
}.

Definition KernelMain (inp : Input) (kernel_args : Kernel.KernelArgs)
    : Proc Z :=
  let intl := Kernel.intl kernel_args in
  let window_definition_name := Kernel.app_description kernel_args in
  match window_result inp with
  | Ok _ =>
      emit (EvShowWindow (Kernel.show_window_flags kernel_args));;
      emit EvUpdateWindow;;
      DispatchMessages window_definition_name (start_time inp) (bursts inp)
  | Err e =>
      FatalDialog
        (l18n_fmt intl "{0} - Error" [Kernel.app_description kernel_args])
        (Some e)
        (l18n intl
           ("Please, check app is installed correctly and you have " +:+
            "enough permissions to run it."))
        (MakeFatalContext kernel_args)
        (l18n_fmt intl "Unable to create main '{0}' window."
           [window_definition_name])
  end.

(** Reading a trace. *)

Definition simulated (tr : list Event) : list Z :=
  omap (fun e => match e with
                 | EvSimulateWorldStep d => Some d
                 | _ => None
                 end) tr.

Definition is_quit_pump (e : Event) : bool :=
  match e with EvPump m => is_quit m | _ => false end.

(** The events that follow the first pumped quit message. *)
Fixpoint after_quit (tr : list Event) : list Event :=
  match tr with
  | [] => []
  | e :: rest => if is_quit_pump e then rest else after_quit rest
  end.

Definition no_quit (msgs : list MSG) : bool :=
  forallb (fun m => negb (is_quit m)) msgs.

(** A burst after which the loop goes on: no quit pumped, nothing
    abnormal reported. *)
Definition quiet (b : Burst) : bool :=
  no_quit (pending b) &&
  match dispatch_rc b with None => true | Some _ => false end.

(** The first quit message of a burst, if it has one. *)
Fixpoint first_quit (msgs : list MSG) : option MSG :=
  match msgs with
  | [] => None
  | m :: rest => if is_quit m then Some m else first_quit rest
  end.

(** The events one call of [Dispatch] leaves behind. *)
Fixpoint pump_events (msgs : list MSG) : list Event :=
  match msgs with
  | [] => []
  | m :: rest =>
      EvPump m :: EvWndProc m :: if is_quit m then [] else pump_events rest
  end.

(** The differences between consecutive clock readings. *)
Fixpoint deltas (start : Z) (readings : list Z) : list Z :=
  match readings with
  | [] => []
  | t :: rest => (t - start) :: deltas t rest
  end.

(** The reading the next pass will measure from. *)
Definition last_reading (start : Z) (readings : list Z) : Z :=
  default start (last readings).

(** The events of a run of quiet bursts. *)
Fixpoint quiet_events (start : Z) (pre : list Burst) : list Event :=
  match pre with
  | [] => []
  | b :: rest =>
      pump_events (pending b) ++
      EvSimulateWorldStep (now b - start) :: quiet_events (now b) rest
  end.

Definition frame_of (x : LoopExit) : Frame :=
  match x with Left f => f | StillRunning f => f end.

(** An event that is neither a pumped quit nor a log line. *)
Definition calm (e : Event) : bool :=
  match e with
  | EvPump m => negb (is_quit m)
  | EvLog _ => false
  | _ => true
  end.


(** The claim that nothing is simulated once a quit has been pumped. *)
Definition no_step_after_quit (tr : list Event) : Prop :=
  simulated (after_quit tr) = [].

End Win32Loop.

(** ** The SDL message loop ([whitebox-kernel/main.cc], the non-Windows branch) *)

Module SdlLoop.
Import Cxx G3Log Sys.

Definition SDL_QUIT : Z := 0x100.

Definition kResizable : Z := 0x00000020.
Definition kAllowHighDpi : Z := 0x00002000.
Definition kUseOpengl : Z := 0x00000002.
Definition kUseVulkan : Z := 0x10000000.
Definition kUseMetal : Z := 0x20000000.

(** The inner [while (::SDL_PollEvent(&event) == 1)]: [polled] holds the
    events the queue gives up before it reports that it is empty.  The
    [break] under [case SDL_QUIT] leaves the [switch], not the loop. *)
Fixpoint poll_events (polled : list SDL_Event) (is_done : bool) : Proc bool :=
  match polled with
  | [] => mret is_done
  | event :: rest =>
      emit (EvPollEvent event);;
      if type event =? SDL_QUIT
      then poll_events rest true
      else poll_events rest is_done
  end.

(** The outer [while (!is_done)]. *)
Fixpoint main_loop (script : list (list SDL_Event)) (is_done : bool)
    : Proc unit :=
  if is_done then mret tt
  else
    match script with
    | [] => ([], Unfinished)
    | polled :: rest =>
        is_done' ← poll_events polled is_done;
        emit (EvSleep 5);;
        main_loop rest is_done'
    end.

Definition DispatchMessages (script : list (list SDL_Event)) : Proc Z :=
  main_loop script false;;
  mret 0.

Definition GetWindowGraphicsContext (flags : Z) : string :=
  if Z.land flags kUseOpengl =? kUseOpengl then "OpenGL"
  else if Z.land flags kUseVulkan =? kUseVulkan then "Vulkan"
  else if Z.land flags kUseMetal =? kUseMetal then "Metal"
  else "N/A".

Definition MakeFatalContext (kernel_args : Kernel.KernelArgs)
    : FatalDialogContext :=
  {| context_icons := None |}.

Inductive TargetOs := Linux | MacOS.

(** An SDL call gives its result or an error text. *)
Inductive SdlResult (T : Type) : Type :=
| SdlOk (v : T)
| SdlError (error : string).
Arguments SdlOk {T} v.
Arguments SdlError {T} error.

(** What [KernelMain] gets from SDL and the build. *)
Record Input := mk_Input {
  target_os : TargetOs;
  compiled_sdl_version : string;
  linked_sdl_version : string;
  sdl_revision : string;
  sdl_initializer : SdlResult unit;
  sdl_image_initializer : SdlResult unit;
  sdl_image_initializer_flags : string;
  sdl_window : SdlResult unit;
  window_icon_result : SdlResult unit;
  platform_window_subsystem : option string;
  polled_events : list (list SDL_Event)
}.

Definition or_fatal (r : SdlResult unit) (fatal : string -> Proc unit)
    : Proc unit :=
  match r with
  | SdlOk _ => mret tt
  | SdlError error => fatal error
  end.

Definition KernelMain (inp : Input) (kernel_args : Kernel.KernelArgs)
    : Proc Z :=
  let intl := Kernel.intl kernel_args in
  let err_title :=
    l18n_fmt intl "{0} - Error" [Kernel.app_description kernel_args] in
  or_fatal (sdl_initializer inp) (fun error =>
    FatalDialog err_title None
      (l18n intl "Please, check your SDL library installed and working.")
      (MakeFatalContext kernel_args)
      (l18n_fmt intl
         ("SDL build/runtime v.{0}/v.{1}, revision '{2}' " +:+
          "initialization failed." +:+ LF +:+ LF +:+ "{3}.")
         [compiled_sdl_version inp; linked_sdl_version inp;
          sdl_revision inp; error]));;
  G3LOG INFO ("SDL versions: build " +:+ compiled_sdl_version inp +:+
              ", runtime " +:+ linked_sdl_version inp +:+ ".");;
  or_fatal (sdl_image_initializer inp) (fun error =>
    FatalDialog err_title None
      (l18n intl "Please, check your SDL library installed and working.")
      (MakeFatalContext kernel_args)
      (l18n_fmt intl
         ("SDL image parser initialization failed for image " +:+
          "types {0}." +:+ LF +:+ LF +:+ "{1}.")
         [sdl_image_initializer_flags inp; error]));;
  let window_flags :=
    Z.lor (Z.lor kResizable kAllowHighDpi)
      (match target_os inp with Linux => kUseVulkan | MacOS => kUseMetal end) in
  or_fatal (sdl_window inp) (fun error =>
    FatalDialog err_title None
      (l18n_fmt intl "Please, check you installed '{0}' libraries/drivers."
         [GetWindowGraphicsContext window_flags])
      (MakeFatalContext kernel_args)
      (l18n_fmt intl
         ("SDL window create failed with '{0}' context." +:+ LF +:+ LF +:+
          "{1}.")
         [GetWindowGraphicsContext window_flags; error]));;
  let window_icon_name := Kernel.app_description kernel_args +:+ " icon.png" in
  match window_icon_result inp with
  | SdlOk _ => mret tt
  | SdlError error =>
      G3LOG WARNING ("SDL unable to set window icon to " +:+ window_icon_name
                     +:+ ", run with default one: " +:+ error +:+ ".")
  end;;
  G3LOG INFO ("SDL graphics context: " +:+
              GetWindowGraphicsContext window_flags +:+ ".");;
  G3LOG INFO ("SDL window subsystem: " +:+
              default "SDL_SYSWM_UNKNOWN" (platform_window_subsystem inp)
              +:+ ".");;
  DispatchMessages (polled_events inp).

Definition is_quit_event (e : SDL_Event) : bool := type e =? SDL_QUIT.

Definition is_ok {T} (r : SdlResult T) : bool :=
  match r with SdlOk _ => true | SdlError _ => false end.

(** SDL, its image parser and the window all came up. *)
Definition startup_ok (inp : Input) : bool :=
  is_ok (sdl_initializer inp) && is_ok (sdl_image_initializer inp) &&
  is_ok (sdl_window inp).

(** Does the script hold a quit event at all? *)
Definition quit_in (script : list (list SDL_Event)) : bool :=
  existsb (existsb is_quit_event) script.

End SdlLoop.

(** ** The input queue *)

Module InputQueue.
Section Queue.
Context {T : Type}.

(** Modelled from the spec: [wb::kernel::input::InputQueue<T>] comes from
    [kernel/input/input_queue.h], which is not among the sources at hand.
    The queue is an insertion-ordered sequence, oldest event first;
    [Push] appends, [DrainAll] hands out everything queued in that order
    and leaves the queue empty.  Calls are taken in the order in which
    they take effect. *)
Definition InputQueue : Type := list T.

Definition empty : InputQueue := [].

Definition Push (event : T) (q : InputQueue) : InputQueue := q ++ [event].

Definition DrainAll (q : InputQueue) : list T * InputQueue := (q, []).

Inductive Call :=
| CallPush (event : T)
| CallDrainAll.

(** Runs the calls in order; gives the results of the [DrainAll] calls,
    in call order, and the queue left at the end. *)
Fixpoint run (calls : list Call) (q : InputQueue)
    : list (list T) * InputQueue :=
  match calls with
  | [] => ([], q)
  | CallPush event :: rest => run rest (Push event q)
  | CallDrainAll :: rest =>
      let '(drained, q') := DrainAll q in
      let '(results, q'') := run rest q' in
      (drained :: results, q'')
  end.

(** The events pushed, in the order of the [Push] calls. *)
Fixpoint pushed (calls : list Call) : list T :=
  match calls with
  | [] => []
  | CallPush event :: rest => event :: pushed rest
  | CallDrainAll :: rest => pushed rest
  end.

End Queue.
Arguments InputQueue T : clear implicits.
Arguments Call T : clear implicits.
End InputQueue.

(** ** [ScopedNewHandler] ([base/include/scoped_new_handler.h]) *)

Module NewHandler.

(** [std::new_handler], a pointer to function: its address, 0 for null. *)
Definition new_handler : Type := Z.

(** The one piece of global state: the handler that is installed. *)
Definition Installed : Type := new_handler.

(** [std::set_new_handler]: installs [h], returns what was installed. *)
Definition set_new_handler (h : new_handler) (g : Installed)
    : new_handler * Installed :=
  (g, h).

Definition get_new_handler (g : Installed) : new_handler := g.

Record ScopedNewHandler := mk_ScopedNewHandler {
  previous_new_handler_ : new_handler
}.

(** The constructor. *)
Definition construct (new_handler : new_handler) (g : Installed)
    : ScopedNewHandler * Installed :=
  let '(previous, g') := set_new_handler new_handler g in
  ({| previous_new_handler_ := previous |}, g').

(** The destructor. *)
Definition destroy (s : ScopedNewHandler) (g : Installed) : Installed :=
  snd (set_new_handler (previous_new_handler_ s) g).

(** A block with a [ScopedNewHandler] declared at its head. *)
Definition scope {A} (h : new_handler) (body : Installed -> A * Installed)
    (g : Installed) : A * Installed :=
  let '(s, g1) := construct h g in
  let '(a, g2) := body g1 in
  (a, destroy s g2).

(** The test [ScopedNewHandlerTest.SetNewFailureHandlerInScope]: the three
    expectations, evaluated with [g] installed at the start. *)
Definition SetNewFailureHandlerInScope (DefaultNewFailureHandler : new_handler)
    (g : Installed) : bool * bool * bool :=
  let before := negb (DefaultNewFailureHandler =? get_new_handler g) in
  let '(inside, g') :=
    scope DefaultNewFailureHandler
      (fun g1 => (DefaultNewFailureHandler =? get_new_handler g1, g1)) g in
  let after := negb (DefaultNewFailureHandler =? get_new_handler g') in
  (before, inside, after).

End NewHandler.

(** ** The Windows launcher ([apps/half-life-2/hl2_exe_main_win.cc]) *)

Module Launcher.
Import Cxx G3Log Sys.

Definition LOAD_WITH_ALTERED_SEARCH_PATH : Z := 0x00000008.
Definition LOAD_LIBRARY_REQUIRE_SIGNED_TARGET : Z := 0x00000080.
Definition LOAD_LIBRARY_SEARCH_USER_DIRS : Z := 0x00000400.
Definition LOAD_LIBRARY_SEARCH_SYSTEM32 : Z := 0x00000800.

(** The flags declared with [ABSL_FLAG] in this file. *)
Record Flags := mk_Flags {
  FLAGS_insecure_allow_unsigned_module_target : bool
}.

(** The value given in the [ABSL_FLAG] declaration. *)
Definition default_flags : Flags :=
  {| FLAGS_insecure_allow_unsigned_module_target := false |}.

(** An open module. *)
Record ScopedSharedLibrary := mk_ScopedSharedLibrary {
  module_handle : Z
}.

(** The type of the boot manager entry point. *)
Definition BootmgrMain : Type := BootManagerArgs -> Z.

Inductive Build := Debug | Release.

(** The build constants and the platform calls the launcher relies on;
    none of them is defined in the sources at hand. *)
Record Host := mk_Host {
  WB_PRODUCT_FILE_DESCRIPTION_STRING : string;
  WB_HALF_LIFE_2_IDI_MAIN_ICON : Z;
  WB_HALF_LIFE_2_IDI_SMALL_ICON : Z;
  kPathToMainLogFile : string;
  kUtf8Locale : string;
  kFallbackLocale : string;
  GetCommandLine : string;
  GetCurrentLocale : option string;
  LookupWithFallback_New : string -> option LookupWithFallback;
  FromCommandLine : string -> result (list string);
  ParseCommandLine : list string -> Flags -> list string * Flags;
  ScopedThreadErrorMode_New : option error_code;
  ScopedThreadComInitializer_New : option error_code;
  ScopedComFatalExceptionHandler_New : option error_code;
  ScopedComStrongUnmarshallingPolicy_New : option error_code;
  SetDefaultDllDirectories : Z -> error_code;
  GetApplicationDirectory : Z -> result string;
  FromLibraryOnPath : string -> Z -> result ScopedSharedLibrary;
  GetAddressAs : ScopedSharedLibrary -> string -> result BootmgrMain
}.


Definition CreateIntl (h : Host) : Proc LookupWithFallback :=
  let maybe_user_locale := GetCurrentLocale h in
  G3LOG_IF WARNING (negb (bool_decide (is_Some maybe_user_locale)))
    (WB_PRODUCT_FILE_DESCRIPTION_STRING h +:+ " unable to use UTF8 locale '"
     +:+ kUtf8Locale h +:+ "' for UI, fallback to '" +:+ kFallbackLocale h
     +:+ "'.");;
  let user_locale := default (kFallbackLocale h) maybe_user_locale in
  G3LOG INFO (WB_PRODUCT_FILE_DESCRIPTION_STRING h +:+ " using " +:+
              user_locale +:+ " locale for UI.");;
  match LookupWithFallback_New h user_locale with
  | Some intl_lookup => mret intl_lookup
  | None =>
      (* A FATAL log line ends the process. *)
      ([EvLog {| level := FATAL;
                 text := "Unable to create localization strings lookup " +:+
                         "for locale " +:+ user_locale +:+ "." |}],
       Terminated)
  end.

Definition MakeFatalContext (h : Host) (intl : LookupWithFallback)
    : FatalDialogContext :=
  {| context_icons := Some (WB_HALF_LIFE_2_IDI_MAIN_ICON h,
                            WB_HALF_LIFE_2_IDI_SMALL_ICON h) |}.

Definition check_installed_hint (intl : LookupWithFallback) : Text :=
  l18n intl ("Please, check app is installed correctly and you have " +:+
             "enough permissions to run it.").

Definition kBootManagerMainName : string := "BootmgrMain".

(** The flags handed to [FromLibraryOnPath]. *)
Definition boot_manager_flags (insecure_allow_unsigned_module_target : bool)
    : Z :=
  Z.lor LOAD_WITH_ALTERED_SEARCH_PATH
    (if negb insecure_allow_unsigned_module_target
     then LOAD_LIBRARY_REQUIRE_SIGNED_TARGET
     else 0).

Definition BootmgrStartup (h : Host) (flags : Flags) (instance : Z)
    (args : list string) (positional_flags : list string)
    (show_window_flags : Z) (intl : LookupWithFallback) : Proc Z :=
  let err_title :=
    l18n_fmt intl "{0} - Error" [WB_PRODUCT_FILE_DESCRIPTION_STRING h] in
  let search_flags :=
    Z.lor LOAD_LIBRARY_SEARCH_SYSTEM32 LOAD_LIBRARY_SEARCH_USER_DIRS in
  emit (EvSetDefaultDllDirectories search_flags);;
  G3PLOGE_IF WARNING (Some (SetDefaultDllDirectories h search_flags))
    ("Can't enable secure DLL search order, attacker can plant DLLs with " +:+
     "malicious code.");;
  app_path ←
    match GetApplicationDirectory h instance with
    | Ok p => mret p
    | Err error =>
        FatalDialog err_title (Some error) (check_installed_hint intl)
          (MakeFatalContext h intl)
          (l18n intl ("Can't get current directory.  May be app located " +:+
                      "too deep (> 1024)?"))
    end;
  let boot_manager_path := app_path +:+ "whitebox-boot-manager.dll" in
  let insecure_allow_unsigned_module_target :=
    FLAGS_insecure_allow_unsigned_module_target flags in
  let boot_manager_flags :=
    boot_manager_flags insecure_allow_unsigned_module_target in
  emit (EvLoadLibrary boot_manager_path boot_manager_flags);;
  match FromLibraryOnPath h boot_manager_path boot_manager_flags with
  | Ok boot_manager =>
      emit (EvGetAddress kBootManagerMainName);;
      match GetAddressAs h boot_manager kBootManagerMainName with
      | Ok boot_manager_main =>
          let boot_manager_args :=
            {| instance := instance;
               args_values := args;
               args_count := Z.of_nat (length args);
               app_description := WB_PRODUCT_FILE_DESCRIPTION_STRING h;
               show_window_flags := show_window_flags;
               main_icon_id := WB_HALF_LIFE_2_IDI_MAIN_ICON h;
               small_icon_id := WB_HALF_LIFE_2_IDI_SMALL_ICON h;
               command_line_flags :=
                 {| positional_flags := positional_flags;
                    insecure_allow_unsigned_module_target :=
                      insecure_allow_unsigned_module_target |};
               intl := intl |} in
          emit (EvBootmgrMain boot_manager_args);;
          mret (boot_manager_main boot_manager_args)
      | Err error =>
          FatalDialog err_title (Some error) (check_installed_hint intl)
            (MakeFatalContext h intl)
            (l18n_fmt intl "Can't get '{0}' entry point from '{1}'."
               [kBootManagerMainName; boot_manager_path])
      end
  | Err error =>
      FatalDialog err_title (Some error) (check_installed_hint intl)
        (MakeFatalContext h intl)
        (l18n_fmt intl "Can't load boot manager '{0}'." [boot_manager_path])
  end.

Definition insecure_switch : string :=
  " --insecure_allow_unsigned_module_target".

(** The command line as the rest of [WinMain] sees it: the [#ifdef _DEBUG]
    block at the head of the function. *)
Definition full_command_line (build : Build) (h : Host) : string :=
  match build with
  | Debug => GetCommandLine h +:+ insecure_switch
  | Release => GetCommandLine h
  end.

Definition WinMain (build : Build) (h : Host) (instance : Z)
    (show_window_flags : Z) : Proc Z :=
  let full_command_line := full_command_line build h in
  emit (EvInitLog full_command_line (kPathToMainLogFile h));;
  intl ← CreateIntl h;
  args ←
    match FromCommandLine h full_command_line with
    | Ok a => mret a
    | Err error =>
        FatalDialog
          (l18n_fmt intl "{0} - Error" [WB_PRODUCT_FILE_DESCRIPTION_STRING h])
          (Some error)
          (l18n intl ("Please ensure you have enough free memory and use " +:+
                      "command line correctly."))
          (MakeFatalContext h intl)
          (l18n intl "Can't parse command line flags.  See log for details.")
    end;
  emit (EvSetProgramUsageMessage
          (WB_PRODUCT_FILE_DESCRIPTION_STRING h +:+ ".  Sample usage:" +:+ LF +:+
           default "" (head args)));;
  let '(positional_flags, flags) := ParseCommandLine h args default_flags in
  G3PLOGE_IF WARNING (ScopedThreadErrorMode_New h)
    ("Can't set thread reaction to serious system errors, continue with " +:+
     "default reaction.");;
  G3PLOGE_IF WARNING (ScopedThreadComInitializer_New h)
    "Component Object Model initialization failed, continue without COM.";;
  G3PLOGE_IF WARNING (ScopedComFatalExceptionHandler_New h)
    ("Can't disable COM exceptions swallowing, some exceptions may not be " +:+
     "passed to the app.");;
  G3PLOGE_IF WARNING (ScopedComStrongUnmarshallingPolicy_New h)
    ("Can't enable strong COM unmarshalling policy, some non-trusted " +:+
     "marshallers can be used.");;
  BootmgrStartup h flags instance args positional_flags show_window_flags intl.

(** Reading a trace. *)

Definition loads (tr : list Event) : list (string * Z) :=
  omap (fun e => match e with
                 | EvLoadLibrary path flags => Some (path, flags)
                 | _ => None
                 end) tr.

Definition fatal_dialogs (tr : list Event) : list FatalDialogPayload :=
  omap (fun e => match e with EvFatalDialog p => Some p | _ => None end) tr.

(** Is the bit of [LOAD_LIBRARY_REQUIRE_SIGNED_TARGET] set in [flags]? *)
Definition requires_signed_target (flags : Z) : bool :=
  negb (Z.land flags LOAD_LIBRARY_REQUIRE_SIGNED_TARGET =? 0).

Definition search_flags : Z :=
  Z.lor LOAD_LIBRARY_SEARCH_SYSTEM32 LOAD_LIBRARY_SEARCH_USER_DIRS.

(** What [BootmgrStartup] does before it asks for the module. *)
Definition hardening (h : Host) : list Event :=
  EvSetDefaultDllDirectories search_flags ::
  trace (G3PLOGE_IF WARNING (Some (SetDefaultDllDirectories h search_flags))
           ("Can't enable secure DLL search order, attacker can plant DLLs with " +:+
            "malicious code.")).

Definition err_title (h : Host) (intl : LookupWithFallback) : Text :=
  l18n_fmt intl "{0} - Error" [WB_PRODUCT_FILE_DESCRIPTION_STRING h].

Definition boot_manager_path (app_path : string) : string :=
  app_path +:+ "whitebox-boot-manager.dll".

(** The record [BootmgrStartup] calls the entry point with. *)
Definition entry_args (h : Host) (flags : Flags) (instance : Z)
    (args positional_flags : list string) (show_window_flags : Z)
    (intl : LookupWithFallback) : BootManagerArgs :=
  {| Sys.instance := instance;
     args_values := args;
     args_count := Z.of_nat (length args);
     app_description := WB_PRODUCT_FILE_DESCRIPTION_STRING h;
     Sys.show_window_flags := show_window_flags;
     main_icon_id := WB_HALF_LIFE_2_IDI_MAIN_ICON h;
     small_icon_id := WB_HALF_LIFE_2_IDI_SMALL_ICON h;
     command_line_flags :=
       {| Sys.positional_flags := positional_flags;
          insecure_allow_unsigned_module_target :=
            FLAGS_insecure_allow_unsigned_module_target flags |};
     Sys.intl := intl |}.

(** The payload of the fatal dialog, with the title and the hint every
    dialog of the launcher shares. *)
Definition fatal_payload (h : Host) (intl : LookupWithFallback)
    (error : error_code) (msg : Text) : FatalDialogPayload :=
  {| title := err_title h intl;
     rc := Some error;
     remediation := check_installed_hint intl;
     context := MakeFatalContext h intl;
     detail := msg |}.

(** The locale [CreateIntl] settles on. *)
Definition user_locale (h : Host) : string :=
  default (kFallbackLocale h) (GetCurrentLocale h).

(** The flags as they stand once [absl::ParseCommandLine] has run. *)
Definition parsed_flags (h : Host) (args : list string) : Flags :=
  snd (ParseCommandLine h args default_flags).

(** The host lets [WinMain] get as far as the entry point [entry]: the
    localisation lookup and the command line are there, the application
    directory is known, the module loads and exports the entry symbol. *)
Definition reaches_entry (build : Build) (h : Host) (instance : Z)
    (entry : BootmgrMain) : Prop :=
  exists (intl : LookupWithFallback) (args : list string)
         (app_path : string) (lib : ScopedSharedLibrary),
    LookupWithFallback_New h (user_locale h) = Some intl /\
    FromCommandLine h (full_command_line build h) = Ok args /\
    GetApplicationDirectory h instance = Ok app_path /\
    FromLibraryOnPath h (boot_manager_path app_path)
      (boot_manager_flags
         (FLAGS_insecure_allow_unsigned_module_target (parsed_flags h args)))
      = Ok lib /\
    GetAddressAs h lib kBootManagerMainName = Ok entry.


End Launcher.

(** ** The Mac launcher ([main] of the Mac Half-Life 2 process) *)

Module MacLauncher.
Import Cxx G3Log Sys.

Definition RTLD_LAZY : Z := 0x1.
Definition RTLD_LOCAL : Z := 0x4.
Definition RTLD_FIRST : Z := 0x100.

Record ScopedSharedLibrary := mk_ScopedSharedLibrary {
  module_handle : Z
}.

(** The type of the entry point as this launcher calls it. *)
Definition BootManagerMainFunction : Type := Z -> list string -> Z.

(** The product strings and the system calls [main] relies on. *)
Record Host := mk_Host {
  WB_PRODUCT_NAME_STRING : string;
  WB_PRODUCT_FILE_VERSION_INFO_STRING : string;
  WB_PRODUCT_FILE_DESCRIPTION_STRING : string;
  WB_PRODUCT_VERSION_INFO_STRING : string;
  (* [_NSGetExecutablePath(nullptr, &size)]: return value and size *)
  NSGetExecutablePath_size : Z * Z;
  (* [_NSGetExecutablePath(buffer, &size)]: return value and path *)
  NSGetExecutablePath : Z -> Z * string;
  dirname : string -> option string;
  errno : Z;
  FromLibraryOnPath : string -> Z -> result ScopedSharedLibrary;
  GetAddressAs : ScopedSharedLibrary -> string -> result BootManagerMainFunction
}.

(** Modelled from the spec: [wb::sdl::Fatal] comes from
    [base/deps/sdl/message_box.h], outside the sources at hand.  It
    reports the failure once and the process ends there. *)
Definition Fatal {A} (product : string) (rc : error_code) (what : string)
    : Proc A :=
  ([EvSdlFatal product rc what], Terminated).

(** [snprintf(buffer, size, "%s/%s/%s", a, b, c)]: at most [size - 1]
    characters are written. *)
Definition snprintf_paths (size : nat) (a b c : string) : string :=
  String.substring 0 (size - 1) (a +:+ "/" +:+ b +:+ "/" +:+ c).

Definition system_error (rv : Z) : error_code :=
  {| value := rv; category := "system" |}.

Definition kBootManagerMainFunctionName : string := "BootmgrMain".

(** [exit(status)]. *)
Definition exit {A} (status : Z) : Proc A := ([EvExit status], Terminated).

Definition rel_path (h : Host) : string :=
  "../Frameworks/" +:+ WB_PRODUCT_NAME_STRING h +:+
  " Framework.framework/Versions/" +:+
  WB_PRODUCT_FILE_VERSION_INFO_STRING h +:+ "/" +:+
  WB_PRODUCT_FILE_DESCRIPTION_STRING h +:+ " Framework".

(** The path built in [framework_path]: the buffer is sized for the
    parent directory, the relative path, one slash and the final NUL. *)
Definition framework_path (h : Host) (parent_dir : string) : string :=
  let parent_dir_len := String.length parent_dir in
  let rel_path_len := String.length (rel_path h) in
  let framework_path_size := (parent_dir_len + rel_path_len + 2)%nat in
  snprintf_paths framework_path_size parent_dir (rel_path h)
    ("libwhitebox-boot-manager." +:+ WB_PRODUCT_VERSION_INFO_STRING h +:+
     ".dylib").

Definition load_flags : Z := Z.lor (Z.lor RTLD_LAZY RTLD_LOCAL) RTLD_FIRST.

Definition main (h : Host) (argc : Z) (argv : list string) : Proc Z :=
  let product := WB_PRODUCT_FILE_DESCRIPTION_STRING h in
  let '(rv, exec_path_size) := NSGetExecutablePath_size h in
  (if negb (rv =? -1)
   then Fatal product (system_error rv)
          ("_NSGetExecutablePath: get length failed.  Unable to load the " +:+
           "app.")
   else mret tt);;
  let '(rv, exec_path) := NSGetExecutablePath h exec_path_size in
  (if negb (rv =? 0)
   then Fatal product (system_error rv)
          "_NSGetExecutablePath: get path failed.  Unable to load the app."
   else mret tt);;
  parent_dir ←
    match dirname h exec_path with
    | Some d => mret d
    | None => Fatal product (system_error (errno h))
                ("dirname '" +:+ exec_path +:+ "'.")
    end;
  let framework_path := framework_path h parent_dir in
  emit (EvLoadLibrary framework_path load_flags);;
  boot_manager_module ←
    match FromLibraryOnPath h framework_path load_flags with
    | Ok m => mret m
    | Err rc => Fatal product rc
                  ("Can't load boot manager '" +:+ framework_path +:+ ".")
    end;
  emit (EvGetAddress kBootManagerMainFunctionName);;
  boot_manager_main ←
    match GetAddressAs h boot_manager_module kBootManagerMainFunctionName with
    | Ok f => mret f
    | Err rc => Fatal product rc
                  ("Can't get '" +:+ kBootManagerMainFunctionName +:+
                   "' entry point from '" +:+ framework_path +:+ "'.")
    end;
  emit (EvBootmgrMainPosix argc argv);;
  let rv := boot_manager_main argc argv in
  exit rv.

(** The host lets [main] get as far as the entry point [entry]. *)
Definition reaches_entry (h : Host) (entry : BootManagerMainFunction)
    : Prop :=
  exists (size : Z) (exec_path parent_dir : string)
         (lib : ScopedSharedLibrary),
    NSGetExecutablePath_size h = (-1, size) /\
    NSGetExecutablePath h size = (0, exec_path) /\
    dirname h exec_path = Some parent_dir /\
    FromLibraryOnPath h (framework_path h parent_dir) load_flags = Ok lib /\
    GetAddressAs h lib kBootManagerMainFunctionName = Ok entry.

End MacLauncher.

(** ** The exit status of the process *)

Module Process.
Import Sys.

(** What the parent of a POSIX process is given of the [status] handed to
    [exit]: its low eight bits, [status & 0377]. *)
Definition WEXITSTATUS (status : Z) : Z := Z.land status 0xFF.

(** The status the process ends with.  When the entry function returns, as
    [WinMain] does, it is the value returned; when the process ends in
    [exit(status)], as the Mac [main] does, it is the low eight bits of
    [status]. *)
Definition exit_status (p : Proc Z) : option Z :=
  match completion p with
  | Returns c => Some c
  | Terminated =>
      match last (trace p) with
      | Some (EvExit status) => Some (WEXITSTATUS status)
      | _ => None
      end
  | Unfinished => None
  end.

End Process.

(** ** A scripted host for the launcher, after the testable properties *)

Module TestHost.
Import Cxx Sys Launcher.

Definition ERROR_MOD_NOT_FOUND : Z := 126.
Definition ERROR_PROC_NOT_FOUND : Z := 127.
Definition ERROR_INVALID_IMAGE_HASH : Z := 577.

Definition win32_error (c : Z) : error_code :=
  {| value := c; category := "system" |}.

(** A module file: whether it carries a trusted signature, and what it
    exports under which name. *)
Record TestModule := mk_TestModule {
  signed : bool;
  exports : gmap string BootmgrMain
}.

Definition app_directory : string := "C:\hl2\".

(** Modelled from the spec: [ScopedSharedLibrary::FromLibraryOnPath]
    ([base/scoped_shared_library.h]) is not among the sources at hand.
    Loading fails for a path with no module behind it, and for a module
    without a trusted signature when the flags require one. *)
Definition load (disk : gmap string TestModule) (path : string) (flags : Z)
    : result ScopedSharedLibrary :=
  match disk !! path with
  | None => Err (win32_error ERROR_MOD_NOT_FOUND)
  | Some m =>
      if requires_signed_target flags && negb (signed m)
      then Err (win32_error ERROR_INVALID_IMAGE_HASH)
      else Ok {| module_handle := 1 |}
  end.

(** Modelled from the spec: [ScopedSharedLibrary::GetAddressAs] looks the
    symbol up by its exact name and fails when it is absent. *)
Definition resolve (m : TestModule) (name : string) : result BootmgrMain :=
  match exports m !! name with
  | Some f => Ok f
  | None => Err (win32_error ERROR_PROC_NOT_FOUND)
  end.

(** A plain reading of the command line: blanks separate the arguments,
    and the switch, wherever it stands, sets the flag. *)
Definition parse (args : list string) (flags : Flags)
    : list string * Flags :=
  (filter (fun a => a ≠ "--insecure_allow_unsigned_module_target")
          (tail args),
   if bool_decide ("--insecure_allow_unsigned_module_target" ∈ args)
   then {| FLAGS_insecure_allow_unsigned_module_target := true |}
   else flags).


(** A host with one boot manager module [m] in the application directory
    and [command_line] as the command line of the process. *)
Definition host (m : TestModule) (command_line : string) : Host :=
  {| WB_PRODUCT_FILE_DESCRIPTION_STRING := "Half-Life 2";
     WB_HALF_LIFE_2_IDI_MAIN_ICON := 101;
     WB_HALF_LIFE_2_IDI_SMALL_ICON := 102;
     kPathToMainLogFile := "logs\";
     kUtf8Locale := "en_US.UTF-8";
     kFallbackLocale := "C";
     GetCommandLine := command_line;
     GetCurrentLocale := Some "en_US.UTF-8";
     LookupWithFallback_New := fun _ => Some (fun s => s);
     FromCommandLine := fun cl => Ok (String.words cl);
     ParseCommandLine := parse;
     ScopedThreadErrorMode_New := None;
     ScopedThreadComInitializer_New := None;
     ScopedComFatalExceptionHandler_New := None;
     ScopedComStrongUnmarshallingPolicy_New := None;
     SetDefaultDllDirectories := fun _ => win32_error 0;
     GetApplicationDirectory := fun _ => Ok app_directory;
     FromLibraryOnPath :=
       load {[ app_directory +:+ "whitebox-boot-manager.dll" := m ]};
     GetAddressAs := fun _ name => resolve m name |}.

(** A signed module whose entry point returns 7. *)
Definition signed_module : TestModule :=
  {| signed := true; exports := {[ "BootmgrMain" := fun _ => 7 ]} |}.

(** The same module without a signature. *)
Definition unsigned_module : TestModule :=
  {| signed := false; exports := {[ "BootmgrMain" := fun _ => 7 ]} |}.

(** A signed module that lacks the entry symbol. *)
Definition module_without_entry : TestModule :=
  {| signed := true; exports := {[ "bootmgrmain" := fun _ => 7 ]} |}.

(** A Mac host whose boot manager returns 7. *)
Definition mac_host : MacLauncher.Host :=
  {| MacLauncher.WB_PRODUCT_NAME_STRING := "Half-Life 2";
     MacLauncher.WB_PRODUCT_FILE_VERSION_INFO_STRING := "1.0.0.0";
     MacLauncher.WB_PRODUCT_FILE_DESCRIPTION_STRING := "Half-Life 2";
     MacLauncher.WB_PRODUCT_VERSION_INFO_STRING := "1.0";
     MacLauncher.NSGetExecutablePath_size := (-1, 32);
     MacLauncher.NSGetExecutablePath := fun _ => (0, "/Apps/hl2.app/MacOS/hl2");
     MacLauncher.dirname := fun _ => Some "/Apps/hl2.app/MacOS";
     MacLauncher.errno := 0;
     MacLauncher.FromLibraryOnPath :=
       fun _ _ => Ok {| MacLauncher.module_handle := 1 |};
     MacLauncher.GetAddressAs := fun _ _ => Ok (fun _ _ => 7) |}.


End TestHost.


(** ** Scripted inputs for the message loop *)

Module Scenario.
Import Cxx Sys Win32Loop.

(** The scripted message source of the testable properties: a mouse
    move, a key press and a quit carrying 42, pumped in one burst, 100
    ticks after the loop was entered. *)
Definition scripted_quit_burst : Burst :=
  {| pending := [ {| message := WM_MOUSEMOVE; wParam := 0 |};
                  {| message := WM_KEYDOWN; wParam := 65 |};
                  PostQuitMessage 42 ];
     dispatch_rc := None;
     now := 116 |}.

Definition scripted_quiet_burst : Burst :=
  {| pending := [ {| message := WM_MOUSEMOVE; wParam := 0 |} ];
     dispatch_rc := None;
     now := 16 |}.

Definition scripted_error_burst : Burst :=
  {| pending := [ {| message := WM_KEYDOWN; wParam := 65 |} ];
     dispatch_rc := Some {| value := 1400; category := "system" |};
     now := 216 |}.



End Scenario.

(** ** The first Windows message loop ([whitebox-kernel/main.cc], [WB_OS_WIN]) *)

Module LegacyWin32Loop.
Import Cxx G3Log Sys Win32Loop.

(** The body of [while (!is_done)] is the call of [Dispatch] alone: what
    it returns is dropped.  The locals [rc] and [is_done] sit in the frame
    of the later loop ([rc] in the place of [exit_code]); the lambda
    [handle_quit_message] is the same. *)
Fixpoint main_loop (script : list Burst) (f : Frame) : LoopExit :=
  if is_done f then Left f
  else
    match script with
    | [] => StillRunning f
    | b :: rest =>
        main_loop rest
          (snd (Dispatch HasNoPreDispatchMessage handle_quit_message b f))
    end.

Definition DispatchMessages (main_window_name : string)
    (script : list Burst) : Proc Z :=
  let f0 := {| exit_code := 0; is_done := false;
               loop_iteration_start_time := 0; effects := [] |} in
  match main_loop script f0 with
  | StillRunning f => (effects f, Unfinished)
  | Left f =>
      let f' :=
        log_if WARNING (negb (exit_code f =? 0))
          ("Main window '" +:+ main_window_name +:+
           "' message dispatch thread exited with non success code " +:+
           pretty (exit_code f)) f in
      (effects f', Returns (exit_code f'))
  end.

Definition window_width : Z := 1024.
Definition window_height : Z := 768.

Definition KernelMain (window_result : result unit) (script : list Burst)
    (kernel_args : Kernel.KernelArgs) : Proc Z :=
  let intl := Kernel.intl kernel_args in
  let window_definition_name := Kernel.app_description kernel_args in
  match window_result with
  | Ok _ =>
      emit (EvShowWindow (Kernel.show_window_flags kernel_args));;
      emit EvUpdateWindow;;
      DispatchMessages window_definition_name script
  | Err e =>
      FatalDialog
        (l18n_fmt intl "{0} - Error" [Kernel.app_description kernel_args])
        (Some e)
        (l18n intl
           ("Please, check app is installed correctly and you have " +:+
            "enough permissions to run it."))
        (Win32Loop.MakeFatalContext kernel_args)
        (l18n_fmt intl "Unable to create main '{0}' window."
           [window_definition_name])
  end.

(** The events the loop leaves behind for bursts without a quit. *)
Fixpoint pumped (pre : list Burst) : list Event :=
  match pre with
  | [] => []
  | b :: rest => pump_events (pending b) ++ pumped rest
  end.

End LegacyWin32Loop.

(** ** Reading the traces of the loops and the launchers *)

Module TraceReading.
Import Cxx G3Log Sys.

(** How many events of a trace pass the test [p]. *)
Definition count (p : Event -> bool) (tr : list Event) : nat :=
  length (List.filter p tr).


Definition is_sdl_fatal (e : Event) : bool :=
  match e with EvSdlFatal _ _ _ => true | _ => false end.

Definition is_pump (e : Event) : bool :=
  match e with EvPump _ => true | _ => false end.

Definition is_load (e : Event) : bool :=
  match e with EvLoadLibrary _ _ => true | _ => false end.

Definition is_hardening (e : Event) : bool :=
  match e with EvSetDefaultDllDirectories _ => true | _ => false end.

Definition entry_calls (tr : list Event) : list BootManagerArgs :=
  omap (fun e => match e with EvBootmgrMain a => Some a | _ => None end) tr.

(** The process ended where it showed its one fatal dialog, and the entry
    point was not called. *)
Definition ends_in_one_dialog (p : Proc Z) : Prop :=
  completion p = Terminated /\
  length (Launcher.fatal_dialogs (trace p)) = 1%nat /\
  entry_calls (trace p) = [].

(** The sum of the times handed to the simulation. *)
Definition total (deltas : list Z) : Z := foldr Z.add 0 deltas.

(** The passes the SDL loop makes over a script: up to and including the
    first burst that holds a quit. *)
Fixpoint passes (script : list (list SDL_Event)) : list (list SDL_Event) :=
  match script with
  | [] => []
  | polled :: rest =>
      polled :: if existsb SdlLoop.is_quit_event polled then [] else passes rest
  end.

(** What one pass of the SDL loop leaves in the trace. *)
Definition pass_events (polled : list SDL_Event) : list Event :=
  map EvPollEvent polled ++ [EvSleep 5].

End TraceReading.

(** ** Hosts that differ in one answer *)

Module HostVariants.
Import Cxx Sys Launcher.

(** [h] with [rc] for what [SetDefaultDllDirectories] reports. *)
Definition with_dll_directories (h : Host) (rc : error_code) : Host :=
  {| WB_PRODUCT_FILE_DESCRIPTION_STRING := WB_PRODUCT_FILE_DESCRIPTION_STRING h;
     WB_HALF_LIFE_2_IDI_MAIN_ICON := WB_HALF_LIFE_2_IDI_MAIN_ICON h;
     WB_HALF_LIFE_2_IDI_SMALL_ICON := WB_HALF_LIFE_2_IDI_SMALL_ICON h;
     kPathToMainLogFile := kPathToMainLogFile h;
     kUtf8Locale := kUtf8Locale h;
     kFallbackLocale := kFallbackLocale h;
     GetCommandLine := GetCommandLine h;
     GetCurrentLocale := GetCurrentLocale h;
     LookupWithFallback_New := LookupWithFallback_New h;
     FromCommandLine := FromCommandLine h;
     ParseCommandLine := ParseCommandLine h;
     ScopedThreadErrorMode_New := ScopedThreadErrorMode_New h;
     ScopedThreadComInitializer_New := ScopedThreadComInitializer_New h;
     ScopedComFatalExceptionHandler_New := ScopedComFatalExceptionHandler_New h;
     ScopedComStrongUnmarshallingPolicy_New :=
       ScopedComStrongUnmarshallingPolicy_New h;
     SetDefaultDllDirectories := fun _ => rc;
     GetApplicationDirectory := GetApplicationDirectory h;
     FromLibraryOnPath := FromLibraryOnPath h;
     GetAddressAs := GetAddressAs h |}.

(** [h] with the four optional initialisers answering [a], [b], [c], [d]. *)
Definition with_initializers (h : Host) (a b c d : option error_code) : Host :=
  {| WB_PRODUCT_FILE_DESCRIPTION_STRING := WB_PRODUCT_FILE_DESCRIPTION_STRING h;
     WB_HALF_LIFE_2_IDI_MAIN_ICON := WB_HALF_LIFE_2_IDI_MAIN_ICON h;
     WB_HALF_LIFE_2_IDI_SMALL_ICON := WB_HALF_LIFE_2_IDI_SMALL_ICON h;
     kPathToMainLogFile := kPathToMainLogFile h;
     kUtf8Locale := kUtf8Locale h;
     kFallbackLocale := kFallbackLocale h;
     GetCommandLine := GetCommandLine h;
     GetCurrentLocale := GetCurrentLocale h;
     LookupWithFallback_New := LookupWithFallback_New h;
     FromCommandLine := FromCommandLine h;
     ParseCommandLine := ParseCommandLine h;
     ScopedThreadErrorMode_New := a;
     ScopedThreadComInitializer_New := b;
     ScopedComFatalExceptionHandler_New := c;
     ScopedComStrongUnmarshallingPolicy_New := d;
     SetDefaultDllDirectories := SetDefaultDllDirectories h;
     GetApplicationDirectory := GetApplicationDirectory h;
     FromLibraryOnPath := FromLibraryOnPath h;
     GetAddressAs := GetAddressAs h |}.

(** [h] with [r] for what [GetApplicationDirectory] answers. *)
Definition with_application_directory (h : Host) (r : result string) : Host :=
  {| WB_PRODUCT_FILE_DESCRIPTION_STRING := WB_PRODUCT_FILE_DESCRIPTION_STRING h;
     WB_HALF_LIFE_2_IDI_MAIN_ICON := WB_HALF_LIFE_2_IDI_MAIN_ICON h;
     WB_HALF_LIFE_2_IDI_SMALL_ICON := WB_HALF_LIFE_2_IDI_SMALL_ICON h;
     kPathToMainLogFile := kPathToMainLogFile h;
     kUtf8Locale := kUtf8Locale h;
     kFallbackLocale := kFallbackLocale h;
     GetCommandLine := GetCommandLine h;
     GetCurrentLocale := GetCurrentLocale h;
     LookupWithFallback_New := LookupWithFallback_New h;
     FromCommandLine := FromCommandLine h;
     ParseCommandLine := ParseCommandLine h;
     ScopedThreadErrorMode_New := ScopedThreadErrorMode_New h;
     ScopedThreadComInitializer_New := ScopedThreadComInitializer_New h;
     ScopedComFatalExceptionHandler_New := ScopedComFatalExceptionHandler_New h;
     ScopedComStrongUnmarshallingPolicy_New :=
       ScopedComStrongUnmarshallingPolicy_New h;
     SetDefaultDllDirectories := SetDefaultDllDirectories h;
     GetApplicationDirectory := fun _ => r;
     FromLibraryOnPath := FromLibraryOnPath h;
     GetAddressAs := GetAddressAs h |}.


(** [h] with a command line reader that answers [r]. *)
Definition with_command_line_reader (h : Host) (r : result (list string))
    : Host :=
  {| WB_PRODUCT_FILE_DESCRIPTION_STRING := WB_PRODUCT_FILE_DESCRIPTION_STRING h;
     WB_HALF_LIFE_2_IDI_MAIN_ICON := WB_HALF_LIFE_2_IDI_MAIN_ICON h;
     WB_HALF_LIFE_2_IDI_SMALL_ICON := WB_HALF_LIFE_2_IDI_SMALL_ICON h;
     kPathToMainLogFile := kPathToMainLogFile h;
     kUtf8Locale := kUtf8Locale h;
     kFallbackLocale := kFallbackLocale h;
     GetCommandLine := GetCommandLine h;
     GetCurrentLocale := GetCurrentLocale h;
     LookupWithFallback_New := LookupWithFallback_New h;
     FromCommandLine := fun _ => r;
     ParseCommandLine := ParseCommandLine h;
     ScopedThreadErrorMode_New := ScopedThreadErrorMode_New h;
     ScopedThreadComInitializer_New := ScopedThreadComInitializer_New h;
     ScopedComFatalExceptionHandler_New := ScopedComFatalExceptionHandler_New h;
     ScopedComStrongUnmarshallingPolicy_New :=
       ScopedComStrongUnmarshallingPolicy_New h;
     SetDefaultDllDirectories := SetDefaultDllDirectories h;
     GetApplicationDirectory := GetApplicationDirectory h;
     FromLibraryOnPath := FromLibraryOnPath h;
     GetAddressAs := GetAddressAs h |}.


End HostVariants.

(** ** Nested [ScopedNewHandler] blocks *)

Module Nesting.
Import NewHandler.

(** Blocks inside one another, the outermost declaring the first handler
    of [hs], with [body] innermost. *)
Fixpoint nested {A} (hs : list new_handler)
    (body : Installed -> A * Installed) : Installed -> A * Installed :=
  match hs with
  | [] => body
  | h :: rest => scope h (nested rest body)
  end.

End Nesting.

(** ** [ScopedComStrongUnmarshallingPolicy]
       ([base/windows/com/scoped_com_strong_unmarshalling_policy.h]) *)

Module ComPolicy.
Import Cxx.

Definition COMGLB_UNMARSHALING_POLICY_STRONG : Z := 2.

(** [IGlobalOptions], for the one property [COMGLB_UNMARSHALING_POLICY],
    over the state [S] of the COM runtime: creating the object, [Query]
    with the value it reads, and [Set]. *)
Record GlobalOptions (S : Type) := mk_GlobalOptions {
  CreateInstance : S -> error_code * S;
  Query : S -> error_code * Z * S;
  Set_ : Z -> S -> error_code * S
}.
Arguments CreateInstance {S} _ _.
Arguments Query {S} _ _.
Arguments Set_ {S} _ _ _.

Record ScopedComStrongUnmarshallingPolicy := mk_Scoped {
  error_code_ : error_code;
  old_global_unmarshalling_policy_option_value_ : Z
}.

(** The constructor.  [None]: the [G3DCHECK] at its end stopped a debug
    build. *)
Definition construct {S} (build : Launcher.Build) (com : GlobalOptions S)
    (s : S) : option (ScopedComStrongUnmarshallingPolicy * S) :=
  let '(error_code_, s) := CreateInstance com s in
  let old := 0 in
  let '(error_code_, old, s) :=
    if negb (error_code_bool error_code_)
    then Query com s
    else (error_code_, old, s) in
  let '(error_code_, s) :=
    if negb (error_code_bool error_code_) &&
       negb (old =? COMGLB_UNMARSHALING_POLICY_STRONG)
    then Set_ com COMGLB_UNMARSHALING_POLICY_STRONG s
    else (error_code_, s) in
  let this := {| error_code_ := error_code_;
                 old_global_unmarshalling_policy_option_value_ := old |} in
  match build with
  | Launcher.Debug =>
      if error_code_bool error_code_ then None else Some (this, s)
  | Launcher.Release => Some (this, s)
  end.

(** The destructor.  [None]: the [G3CHECK] stopped the process because the
    old value could not be put back. *)
Definition destroy {S} (com : GlobalOptions S)
    (this : ScopedComStrongUnmarshallingPolicy) (s : S) : option S :=
  if negb (error_code_bool (error_code_ this)) &&
     negb (old_global_unmarshalling_policy_option_value_ this =?
           COMGLB_UNMARSHALING_POLICY_STRONG)
  then
    let '(rc, s') :=
      Set_ com (old_global_unmarshalling_policy_option_value_ this) s in
    if error_code_bool rc then None else Some s'
  else Some s.

(** What is taken for granted of the COM runtime, with [policy] reading the
    property off its state: creating the object and [Query] leave the
    property alone, a [Query] that succeeds reads it, a [Set] that succeeds
    has stored the value, and a [Set] that fails has stored nothing. *)
Definition lawful {S} (com : GlobalOptions S) (policy : S -> Z) : Prop :=
  (forall s, policy (snd (CreateInstance com s)) = policy s) /\
  (forall s, policy (snd (Query com s)) = policy s /\
             (error_code_bool (fst (fst (Query com s))) = false ->
              snd (fst (Query com s)) = policy s)) /\
  (forall v s, policy (snd (Set_ com v s)) =
               if error_code_bool (fst (Set_ com v s)) then policy s else v).

(** A runtime that never fails, with the property as its whole state. *)
Definition plain : GlobalOptions Z :=
  {| CreateInstance := fun s => ({| value := 0; category := "system" |}, s);
     Query := fun s => ({| value := 0; category := "system" |}, s, s);
     Set_ := fun v _ => ({| value := 0; category := "system" |}, v) |}.

End ComPolicy.

(** ** [SdlWindow] ([base/deps/sdl/sdl_window.h]) *)

Module SdlWindowLife.

(** The members: the [SDL_Window] pointer (null as [None]), the result of
    the initialisation ([SdlError::Success()] as [None], else the return
    code) and the flags. *)
Record SdlWindow := mk_SdlWindow {
  window_ : option Z;
  init_rc_ : option Z;
  flags_ : Z
}.

(** The private constructor; [created] is what [SDL_CreateWindow] gave.
    [None]: the [G3DCHECK] on the window stopped a debug build. *)
Definition create (build : Launcher.Build) (created : option Z) (flags : Z)
    : option SdlWindow :=
  let this :=
    {| window_ := created;
       init_rc_ := match created with Some _ => None | None => Some (-1) end;
       flags_ := flags |} in
  match build, created with
  | Launcher.Debug, None => None
  | _, _ => Some this
  end.

(** The move constructor: the new object and what is left of the old. *)
Definition move_construct (w : SdlWindow) : SdlWindow * SdlWindow :=
  ({| window_ := window_ w; init_rc_ := init_rc_ w; flags_ := flags_ w |},
   {| window_ := None; init_rc_ := None; flags_ := flags_ w |}).

(** The move assignment: the three members are swapped. *)
Definition move_assign (this w : SdlWindow) : SdlWindow * SdlWindow :=
  ({| window_ := window_ w; init_rc_ := init_rc_ w; flags_ := flags_ w |},
   {| window_ := window_ this; init_rc_ := init_rc_ this;
      flags_ := flags_ this |}).

(** The destructor: the windows handed to [SDL_DestroyWindow]. *)
Definition destroy (w : SdlWindow) : list Z :=
  match window_ w with
  | Some window => [window]
  | None => []
  end.

(** [SdlWindow::New]: the result, and what the destructor of its local
    [window] destroys on the way out. *)
Definition New (build : Launcher.Build) (created : option Z) (flags : Z)
    : option ((SdlWindow + Z) * list Z) :=
  window ← create build created flags;
  match init_rc_ window with
  | None =>
      let '(result, window) := move_construct window in
      Some (inl result, destroy window)
  | Some rc => Some (inr rc, destroy window)
  end.

(** A window moved [n] times from object to object: the objects left
    behind, oldest first, and the one that holds it at the end. *)
Fixpoint move_chain (n : nat) (w : SdlWindow) : list SdlWindow * SdlWindow :=
  match n with
  | O => ([], w)
  | S n' =>
      let '(w', husk) := move_construct w in
      let '(husks, final) := move_chain n' w' in
      (husk :: husks, final)
  end.

End SdlWindowLife.

(** ** The mouse flags as text ([base/windows/ui/mouse.h]) *)

Module Mouse.

Definition kMoveRelative : Z := 0x8000.
Definition kMoveAbsolute : Z := 0x0001.
Definition kVirtualDesktop : Z := 0x0002.
Definition kMouseAttributesChanged : Z := 0x0004.
Definition kMouseMoveNoCoalesce : Z := 0x0008.

Definition kNone : Z := 0x0000.
Definition kLeftButtonDown : Z := 0x0001.
Definition kLeftButtonUp : Z := 0x0002.
Definition kRightButtonDown : Z := 0x0004.
Definition kRightButtonUp : Z := 0x0008.
Definition kMiddleButtonDown : Z := 0x0010.
Definition kMiddleButtonUp : Z := 0x0020.
Definition kXButton1Down : Z := 0x0040.
Definition kXButton1Up : Z := 0x0080.
Definition kXButton2Down : Z := 0x0100.
Definition kXButton2Up : Z := 0x0200.
Definition kVerticalWheel : Z := 0x0400.
Definition kHorizontalWheel : Z := 0x0800.

(** [(state_flags & flag) == flag], on the values of the enumeration. *)
Definition has (state_flags flag : Z) : bool :=
  Z.land state_flags flag =? flag.

(** [if (has a) result += x; else if (has b) result += y;] *)
Definition add_either (state_flags a b : Z) (x y : string) (result : string)
    : string :=
  if has state_flags a then result +:+ x
  else if has state_flags b then result +:+ y
  else result.

(** [if (has a) result += x;] *)
Definition add_if (state_flags a : Z) (x : string) (result : string)
    : string :=
  if has state_flags a then result +:+ x else result.

(** [to_string(MouseStateFlags)]. *)
Definition to_string_state (state_flags : Z) : string :=
  let result := "" in
  let result :=
    add_either state_flags kMoveRelative kMoveAbsolute
      "Relative" "Absolute" result in
  let result := add_if state_flags kVirtualDesktop "| Virtual Desktop" result in
  let result :=
    add_if state_flags kMouseAttributesChanged "| Attributes Changed" result in
  let result :=
    add_if state_flags kMouseMoveNoCoalesce "| Move No Coalesce" result in
  result.

(** [to_string(MouseButtonTransitionState)]. *)
Definition to_string_buttons (state_flags : Z) : string :=
  let result := "" in
  let result :=
    add_either state_flags kLeftButtonDown kLeftButtonUp
      "Left Down" "Left Up" result in
  let result :=
    add_either state_flags kRightButtonDown kRightButtonUp
      "Right Down " "Right Up " result in
  let result :=
    add_either state_flags kMiddleButtonDown kMiddleButtonUp
      "Middle Down " "Middle Up " result in
  let result :=
    add_either state_flags kXButton1Down kXButton1Up
      "X1 Down " "X1 Up " result in
  let result :=
    add_either state_flags kXButton2Down kXButton2Up
      "X2 Down " "X2 Up " result in
  let result := add_if state_flags kVerticalWheel "Vertical Wheel " result in
  let result :=
    add_if state_flags kHorizontalWheel "Horizontal Wheel " result in
  if (0 <? String.length result)%nat then result else "None".

(** The flags [to_string(MouseStateFlags)] looks at. *)
Definition state_flags_read : list Z :=
  [kMoveRelative; kMoveAbsolute; kVirtualDesktop; kMouseAttributesChanged;
   kMouseMoveNoCoalesce].

(** The flags [to_string(MouseButtonTransitionState)] looks at. *)
Definition button_flags_read : list Z :=
  [kLeftButtonDown; kLeftButtonUp; kRightButtonDown; kRightButtonUp;
   kMiddleButtonDown; kMiddleButtonUp; kXButton1Down; kXButton1Up;
   kXButton2Down; kXButton2Up; kVerticalWheel; kHorizontalWheel].

(** None of the flags of [read] is found in [state_flags]. *)
Definition none_of (read : list Z) (state_flags : Z) : bool :=
  forallb (fun flag => negb (has state_flags flag)) read.

End Mouse.

(** ** [WideToAnsi] and [AnsiToWide] ([base/std_ext/cstring_ext.cc]) *)

Module CStringExt.

(** A conversion routine of the C runtime ([wcstombs_s], [mbstowcs_s]): from
    the source characters, the size of the destination and the count, the
    error number it returns and the characters it stores from the start of
    the destination. *)
Definition Converter : Type := list Z -> nat -> nat -> Z * list Z.

(** Storing into a buffer of fixed size through a pointer to its start. *)
Definition store (stored buffer : list Z) : list Z :=
  take (length buffer) (stored ++ drop (length stored) buffer).

(** Both functions have the same shape.  [None]: the [G3DCHECK] on the
    returned error stopped a debug build. *)
Definition convert (build : Launcher.Build) (crt : Converter) (in_ : list Z)
    : option (list Z) :=
  let in_size := S (length in_) in
  let out := replicate in_size 0 in
  let '(rc, stored) := crt in_ in_size in_size in
  let out := store stored out in
  match build with
  | Launcher.Debug => if rc =? 0 then Some out else None
  | Launcher.Release => Some out
  end.

Definition WideToAnsi (build : Launcher.Build) (wcstombs_s : Converter)
    (in_ : list Z) : option (list Z) :=
  convert build wcstombs_s in_.

Definition AnsiToWide (build : Launcher.Build) (mbstowcs_s : Converter)
    (in_ : list Z) : option (list Z) :=
  convert build mbstowcs_s in_.

(** A runtime in the "C" locale: the characters up to the first NUL or the
    count are stored as they are, with a NUL behind them. *)
Fixpoint until_nul (src : list Z) (count : nat) : list Z :=
  match src, count with
  | c :: rest, S n => if c =? 0 then [] else c :: until_nul rest n
  | _, _ => []
  end.

Definition c_locale : Converter :=
  fun src _ count => (0, until_nul src count ++ [0]).

End CStringExt.

(** * Properties *)

(** ** C++ conversions *)

Section Conversions.
Import Cxx.



End Conversions.

(** ** The Windows message loop *)

Section Win32LoopFacts.
Import Cxx G3Log Sys Win32Loop.

Lemma simulated_app (l1 l2 : list Event) :
  simulated (l1 ++ l2) = simulated l1 ++ simulated l2.
Proof. unfold simulated. apply omap_app. Qed.

Lemma calm_no_warning (l : list Event) :
  forallb calm l = true -> existsb is_warning_log l = false.
Proof.
  induction l as [|e l IH]; simpl; [reflexivity|].
  intros [He Hl]%andb_prop. rewrite (IH Hl).
  destruct e; simpl in *; try reflexivity. discriminate.
Qed.

Lemma calm_after_quit (l1 l2 : list Event) :
  forallb calm l1 = true -> after_quit (l1 ++ l2) = after_quit l2.
Proof.
  induction l1 as [|e l1 IH]; simpl; [reflexivity|].
  intros [He Hl]%andb_prop.
  destruct e; simpl in *; auto.
  destruct (is_quit m); simpl in *; [discriminate | auto].
Qed.

Lemma first_quit_none (msgs : list MSG) :
  no_quit msgs = true -> first_quit msgs = None.
Proof.
  induction msgs as [|m msgs IH]; simpl; [reflexivity|].
  intros [Hm Hr]%andb_prop. destruct (is_quit m); [discriminate | auto].
Qed.

Lemma first_quit_found (ms ms' : list MSG) (q : MSG) :
  no_quit ms = true -> is_quit q = true ->
  first_quit (ms ++ q :: ms') = Some q.
Proof.
  intros Hms Hq. induction ms as [|m ms IH]; simpl.
  - rewrite Hq. reflexivity.
  - simpl in Hms. apply andb_prop in Hms as [Hm Hr].
    destruct (is_quit m); [discriminate | auto].
Qed.

Lemma pump_events_quiet (msgs : list MSG) :
  no_quit msgs = true ->
  forallb calm (pump_events msgs) = true /\ simulated (pump_events msgs) = [].
Proof.
  induction msgs as [|m msgs IH]; simpl; [split; reflexivity|].
  intros [Hm Hr]%andb_prop. destruct (IH Hr) as [IH1 IH2].
  destruct (is_quit m); [discriminate|]. simpl. split; assumption.
Qed.

Lemma pump_events_no_log (msgs : list MSG) :
  existsb is_warning_log (pump_events msgs) = false /\
  simulated (pump_events msgs) = [].
Proof.
  induction msgs as [|m msgs [IH1 IH2]]; simpl; [split; reflexivity|].
  destruct (is_quit m); simpl; split; auto.
Qed.

(** The events of a burst that holds a quit: the quit is the last message
    pumped, and what follows it in the trace is its normal handling. *)
Lemma pump_events_quit (ms ms' : list MSG) (q : MSG) (l : list Event) :
  no_quit ms = true -> is_quit q = true ->
  after_quit (pump_events (ms ++ q :: ms') ++ l) = EvWndProc q :: l.
Proof.
  intros Hms Hq. induction ms as [|m ms IH]; cbn [app pump_events].
  - rewrite Hq. cbn [app after_quit is_quit_pump]. rewrite Hq. reflexivity.
  - cbn [no_quit forallb] in Hms. apply andb_prop in Hms as [Hm Hr].
    destruct (is_quit m) eqn:E; [discriminate|].
    cbn [app after_quit is_quit_pump]. rewrite E. auto.
Qed.

(** What [Dispatch] does to the frame, in closed form. *)
Lemma pump_closed_form (msgs : list MSG) (f : Frame) :
  pump HasNoPreDispatchMessage handle_quit_message msgs f =
  {| exit_code := match first_quit msgs with
                  | Some q => static_cast_int (wParam q)
                  | None => exit_code f
                  end;
     is_done := match first_quit msgs with
                | Some _ => true
                | None => is_done f
                end;
     loop_iteration_start_time := loop_iteration_start_time f;
     effects := effects f ++ pump_events msgs |}.
Proof.
  revert f. induction msgs as [|m msgs IH]; intros f; simpl.
  - rewrite app_nil_r. destruct f; reflexivity.
  - unfold handle_quit_message, is_quit.
    destruct (message m =? WM_QUIT) eqn:E; simpl.
    + rewrite <- app_assoc. reflexivity.
    + rewrite IH. simpl. rewrite <- !app_assoc. reflexivity.
Qed.

Lemma last_reading_cons (start t : Z) (readings : list Z) :
  last_reading start (t :: readings) = last_reading t readings.
Proof.
  unfold last_reading. rewrite last_cons.
  destruct (last readings); reflexivity.
Qed.

Lemma last_reading_snoc (start t : Z) (readings : list Z) :
  last_reading start (readings ++ [t]) = t.
Proof. unfold last_reading. rewrite last_snoc. reflexivity. Qed.

Lemma deltas_length (start : Z) (readings : list Z) :
  length (deltas start readings) = length readings.
Proof.
  revert start. induction readings as [|t r IH]; intros start; simpl;
    [reflexivity | rewrite IH; reflexivity].
Qed.

(** One pass of the loop, in closed form. *)
Lemma loop_body_closed_form (name : string) (b : Burst) (f : Frame) :
  loop_body name b f =
  match dispatch_rc b with
  | Some rc =>
      Break
        {| exit_code := value rc;
           is_done := match first_quit (pending b) with
                      | Some _ => true
                      | None => is_done f
                      end;
           loop_iteration_start_time := loop_iteration_start_time f;
           effects :=
             effects f ++ pump_events (pending b) ++
             (if error_code_bool rc
              then [EvLog {| level := WARNING;
                             text := "Main window '" +:+ name +:+
                               "' message dispatch thread received error." |}]
              else []) |}
  | None =>
      Continue
        {| exit_code := match first_quit (pending b) with
                        | Some q => static_cast_int (wParam q)
                        | None => exit_code f
                        end;
           is_done := match first_quit (pending b) with
                      | Some _ => true
                      | None => is_done f
                      end;
           loop_iteration_start_time := now b;
           effects :=
             effects f ++ pump_events (pending b) ++
             [EvSimulateWorldStep (now b - loop_iteration_start_time f)] |}
  end.
Proof.
  unfold loop_body, Dispatch. rewrite pump_closed_form.
  destruct (dispatch_rc b) as [rc|]; simpl.
  - unfold log_if. destruct (error_code_bool rc); simpl.
    + rewrite <- app_assoc. reflexivity.
    + rewrite app_nil_r. reflexivity.
  - unfold record. simpl. rewrite <- app_assoc. reflexivity.
Qed.

Lemma quiet_events_calm (start : Z) (pre : list Burst) :
  forallb quiet pre = true ->
  forallb calm (quiet_events start pre) = true /\
  simulated (quiet_events start pre) = deltas start (map now pre).
Proof.
  revert start. induction pre as [|b pre IH]; intros start Hq;
    [split; reflexivity|].
  cbn [forallb] in Hq. apply andb_prop in Hq as [Hb Hpre].
  unfold quiet in Hb. apply andb_prop in Hb as [Hmsgs _].
  destruct (pump_events_quiet _ Hmsgs) as [Hcalm Hsim].
  destruct (IH (now b) Hpre) as [IH1 IH2].
  cbn [quiet_events map deltas]. split.
  - rewrite forallb_app, Hcalm. simpl. exact IH1.
  - rewrite simulated_app, Hsim. simpl. rewrite IH2. reflexivity.
Qed.

(** Over quiet bursts the loop keeps turning: one simulation step per
    burst, each fed the time since the previous pass. *)
Lemma main_loop_quiet (name : string) (pre rest : list Burst) (f : Frame) :
  forallb quiet pre = true -> is_done f = false ->
  main_loop name (pre ++ rest) f =
  main_loop name rest
    {| exit_code := exit_code f;
       is_done := false;
       loop_iteration_start_time :=
         last_reading (loop_iteration_start_time f) (map now pre);
       effects :=
         effects f ++ quiet_events (loop_iteration_start_time f) pre |}.
Proof.
  revert f. induction pre as [|b pre IH]; intros f Hq Hf.
  - simpl. rewrite app_nil_r. unfold last_reading. simpl.
    rewrite <- Hf. destruct f; reflexivity.
  - cbn [forallb] in Hq. apply andb_prop in Hq as [Hb Hpre].
    unfold quiet in Hb. apply andb_prop in Hb as [Hmsgs Hrc].
    destruct (dispatch_rc b) as [rc|] eqn:Erc; [discriminate|].
    cbn [app main_loop]. rewrite Hf, loop_body_closed_form, Erc.
    rewrite (first_quit_none _ Hmsgs).
    rewrite IH by (assumption || exact Hf).
    cbn [exit_code is_done loop_iteration_start_time effects map
         quiet_events].
    rewrite last_reading_cons, <- !app_assoc. reflexivity.
Qed.

(** The pass in which a quit is pumped runs to its end, and is the last. *)
Lemma main_loop_quit (name : string) (b : Burst) (rest : list Burst)
    (f : Frame) (ms ms' : list MSG) (q : MSG) :
  is_done f = false -> dispatch_rc b = None ->
  pending b = ms ++ q :: ms' -> no_quit ms = true -> is_quit q = true ->
  main_loop name (b :: rest) f =
  Left {| exit_code := static_cast_int (wParam q);
          is_done := true;
          loop_iteration_start_time := now b;
          effects :=
            effects f ++ pump_events (pending b) ++
            [EvSimulateWorldStep (now b - loop_iteration_start_time f)] |}.
Proof.
  intros Hf Hrc Hp Hms Hq.
  cbn [main_loop]. rewrite Hf, loop_body_closed_form, Hrc.
  rewrite Hp, (first_quit_found _ _ _ Hms Hq).
  destruct rest; reflexivity.
Qed.

(** The pass in which [Dispatch] reports an abnormal condition is cut
    short, and is the last. *)
Lemma main_loop_error (name : string) (b : Burst) (rest : list Burst)
    (f : Frame) (rc : error_code) :
  is_done f = false -> dispatch_rc b = Some rc ->
  exists done_ : bool,
    main_loop name (b :: rest) f =
    Left {| exit_code := value rc;
            is_done := done_;
            loop_iteration_start_time := loop_iteration_start_time f;
            effects :=
              effects f ++ pump_events (pending b) ++
              (if error_code_bool rc
               then [EvLog {| level := WARNING;
                              text := "Main window '" +:+ name +:+
                                "' message dispatch thread received error."
                           |}]
               else []) |}.
Proof.
  intros Hf Hrc. cbn [main_loop].
  rewrite Hf, loop_body_closed_form, Hrc. eexists. reflexivity.
Qed.

(** A loop that ends with exit code zero has logged no warning. *)
Lemma main_loop_silent (name : string) (script : list Burst) (f f' : Frame) :
  existsb is_warning_log (effects f) = false ->
  main_loop name script f = Left f' ->
  exit_code f' = 0 ->
  existsb is_warning_log (effects f') = false.
Proof.
  revert f. induction script as [|b script IH]; intros f Hw; cbn [main_loop].
  - destruct (is_done f); [|discriminate].
    intros [= <-] _. exact Hw.
  - destruct (is_done f); [intros [= <-] _; exact Hw|].
    rewrite loop_body_closed_form.
    destruct (pump_events_no_log (pending b)) as [Hnl _].
    destruct (dispatch_rc b) as [rc|].
    + intros [= <-]. cbn [exit_code effects]. intros H0.
      unfold error_code_bool. rewrite H0. simpl.
      rewrite !existsb_app, Hw, Hnl. reflexivity.
    + apply IH. cbn [effects].
      rewrite !existsb_app, Hw, Hnl. reflexivity.
Qed.

(** The loop only ever adds to the trace. *)
Lemma main_loop_extends (name : string) (script : list Burst) (f : Frame) :
  exists ext : list Event,
    effects (frame_of (main_loop name script f)) = effects f ++ ext.
Proof.
  revert f. induction script as [|b script IH]; intros f; cbn [main_loop].
  - exists []. rewrite app_nil_r. destruct (is_done f); reflexivity.
  - destruct (is_done f); [exists []; rewrite app_nil_r; reflexivity|].
    rewrite loop_body_closed_form.
    destruct (dispatch_rc b) as [rc|].
    + eexists. reflexivity.
    + match goal with |- context [main_loop name script ?f1] =>
        destruct (IH f1) as [ext Hext] end.
      rewrite Hext. cbn [effects]. rewrite <- app_assoc. eexists. reflexivity.
Qed.

(** The trace of [DispatchMessages] is that of the loop, with at most the
    closing log line behind it. *)
Lemma DispatchMessages_trace (name : string) (start : Z)
    (script : list Burst) :
  exists tail_ : list Event,
    trace (DispatchMessages name start script) =
    effects (frame_of (main_loop name script
               {| exit_code := 0; is_done := false;
                  loop_iteration_start_time := start; effects := [] |}))
    ++ tail_
    /\ simulated tail_ = [].
Proof.
  unfold DispatchMessages.
  destruct (main_loop name script _) as [f|f]; cbn [frame_of].
  - unfold log_if. destruct (negb (exit_code f =? 0)).
    + eexists. split; [reflexivity | reflexivity].
    + exists []. rewrite app_nil_r. split; reflexivity.
  - exists []. rewrite app_nil_r. split; reflexivity.
Qed.

End Win32LoopFacts.

Section Win32LoopClaims.
Import Cxx G3Log Sys Win32Loop.

(** The trace and the result of a script that ends in a quit. *)
Lemma DispatchMessages_quit (name : string) (start : Z)
    (pre : list Burst) (b : Burst) (rest : list Burst)
    (ms ms' : list MSG) (q : MSG) :
  forallb quiet pre = true -> dispatch_rc b = None ->
  pending b = ms ++ q :: ms' -> no_quit ms = true -> is_quit q = true ->
  DispatchMessages name start (pre ++ b :: rest) =
  (quiet_events start pre ++ pump_events (pending b) ++
   EvSimulateWorldStep (now b - last_reading start (map now pre)) ::
   (if negb (static_cast_int (wParam q) =? 0)
    then [EvLog {| level := WARNING;
                   text := "Main window '" +:+ name +:+
                     "' message dispatch thread exited with non success code "
                     +:+ pretty (static_cast_int (wParam q)) |}]
    else []),
   Returns (static_cast_int (wParam q))).
Proof.
  intros Hpre Hrc Hp Hms Hq. unfold DispatchMessages.
  rewrite main_loop_quiet by (assumption || reflexivity).
  erewrite main_loop_quit by (eassumption || reflexivity).
  cbn [exit_code effects loop_iteration_start_time app]. unfold log_if.
  destruct (negb (static_cast_int (wParam q) =? 0));
    cbn [exit_code effects record app];
    rewrite <- ?app_assoc; cbn [app]; try rewrite app_nil_r; reflexivity.
Qed.

(** The trace and the result of a script that ends in a dispatch error. *)
Lemma DispatchMessages_error (name : string) (start : Z)
    (pre : list Burst) (b : Burst) (rest : list Burst) (rc : error_code) :
  forallb quiet pre = true -> dispatch_rc b = Some rc ->
  DispatchMessages name start (pre ++ b :: rest) =
  (quiet_events start pre ++ pump_events (pending b) ++
   (if error_code_bool rc
    then [EvLog {| level := WARNING;
                   text := "Main window '" +:+ name +:+
                     "' message dispatch thread received error." |}]
    else []) ++
   (if negb (value rc =? 0)
    then [EvLog {| level := WARNING;
                   text := "Main window '" +:+ name +:+
                     "' message dispatch thread exited with non success code "
                     +:+ pretty (value rc) |}]
    else []),
   Returns (value rc)).
Proof.
  intros Hpre Hrc. unfold DispatchMessages.
  rewrite main_loop_quiet by (assumption || reflexivity).
  edestruct main_loop_error as [d ->]; [reflexivity | exact Hrc |].
  cbn [exit_code effects loop_iteration_start_time app]. unfold log_if.
  destruct (negb (value rc =? 0));
    cbn [exit_code effects record app];
    rewrite <- ?app_assoc; try rewrite !app_nil_r; reflexivity.
Qed.

(** Whatever ends the loop, a warning is in the log exactly when the exit
    code is not zero. *)
Lemma warning_iff_nonzero_exit (name : string) (start : Z)
    (script : list Burst) (tr : list Event) (c : Z) :
  DispatchMessages name start script = (tr, Returns c) ->
  existsb is_warning_log tr = negb (c =? 0).
Proof.
  unfold DispatchMessages.
  destruct (main_loop name script _) as [f|f] eqn:E; [|discriminate].
  unfold log_if. destruct (exit_code f =? 0) eqn:E0; cbn [negb].
  - intros [= <- <-]. rewrite E0.
    eapply main_loop_silent; [| exact E | lia]. reflexivity.
  - cbn [record effects exit_code]. intros [= <- <-]. rewrite E0.
    rewrite existsb_app. simpl. apply orb_true_r.
Qed.

(** On a script of quiet bursts every pass is fed the time since the
    pass before it. *)
Lemma quiet_script_deltas (name : string) (start : Z) (pre : list Burst) :
  forallb quiet pre = true ->
  simulated (trace (DispatchMessages name start pre)) =
  deltas start (map now pre).
Proof.
  intros Hpre. unfold DispatchMessages.
  rewrite <- (app_nil_r pre) at 1.
  rewrite main_loop_quiet by (assumption || reflexivity).
  cbn [main_loop is_done trace fst effects exit_code
       loop_iteration_start_time app].
  apply quiet_events_calm. exact Hpre.
Qed.

Lemma deltas_nonneg (start : Z) (readings : list Z) :
  StronglySorted Z.le (start :: readings) ->
  Forall (fun d => 0 <= d) (deltas start readings).
Proof.
  revert start. induction readings as [|t r IH]; intros start Hs; cbn [deltas];
    [constructor|].
  apply StronglySorted_inv in Hs as [Hr Hall].
  constructor.
  - apply Forall_inv in Hall. lia.
  - apply IH. exact Hr.
Qed.

(** With a clock that never runs backwards no pass is fed a negative
    time. *)
Lemma monotonic_clock_nonneg_deltas (name : string) (start : Z)
    (pre : list Burst) :
  forallb quiet pre = true ->
  StronglySorted Z.le (start :: map now pre) ->
  Forall (fun d => 0 <= d) (simulated (trace (DispatchMessages name start pre))).
Proof.
  intros Hpre Hs. rewrite quiet_script_deltas by exact Hpre.
  apply deltas_nonneg. exact Hs.
Qed.

(** A burst that holds a quit splits at the first one. *)
Lemma first_quit_pumped (msgs : list MSG) (q : MSG) :
  first_quit msgs = Some q ->
  exists (ms ms' : list MSG),
    msgs = ms ++ q :: ms' /\ no_quit ms = true /\ is_quit q = true.
Proof.
  induction msgs as [|m msgs IH]; cbn [first_quit]; [discriminate|].
  destruct (is_quit m) eqn:E.
  - intros [= <-]. exists [], msgs. repeat split. exact E.
  - intros H. destruct (IH H) as (ms & ms' & -> & Hms & Hq).
    exists (m :: ms), ms'. repeat split; [|exact Hq].
    cbn [no_quit forallb]. rewrite E. exact Hms.
Qed.

End Win32LoopClaims.

Section MainLoopTheorems.
Import Cxx G3Log Sys Win32Loop Scenario.

(** C1, as it is worded, does not hold.  On the scripted source
    [Move, KeyDown, Quit(42)] the loop does return 42, but the pass that
    pumped the quit goes on to call [SimulateWorldStep] once more: the
    flag set by [handle_quit_message] is looked at only when the [while]
    condition is evaluated again. *)
Lemma quit_burst_still_simulates :
  ~ no_step_after_quit
      (trace (DispatchMessages "Half-Life 2" 16 [scripted_quit_burst])).
Proof. unfold no_step_after_quit. vm_compute. discriminate. Qed.

(** C1, amended.  When a quit message is pumped in a burst for which
    [Dispatch] reports nothing abnormal, the loop returns the code the quit
    carries; the pass that pumped the quit still runs to its end, so
    exactly one simulation step follows the quit, and it is the last one:
    no later burst is looked at. *)
Theorem quit_ends_loop_after_current_pass (name : string) (start : Z)
    (pre : list Burst) (b : Burst) (rest : list Burst)
    (ms ms' : list MSG) (q : MSG) :
  forallb quiet pre = true ->
  dispatch_rc b = None ->
  pending b = ms ++ q :: ms' ->
  no_quit ms = true ->
  is_quit q = true ->
  completion (DispatchMessages name start (pre ++ b :: rest)) =
    Returns (static_cast_int (wParam q)) /\
  simulated (after_quit (trace (DispatchMessages name start (pre ++ b :: rest)))) =
    [now b - last_reading start (map now pre)] /\
  length (simulated (trace (DispatchMessages name start (pre ++ b :: rest)))) =
    S (length pre) /\
  DispatchMessages name start (pre ++ b :: rest) =
    DispatchMessages name start (pre ++ [b]).
Proof.
  intros Hpre Hrc Hp Hms Hq.
  rewrite !(DispatchMessages_quit name start pre b _ ms ms' q) by assumption.
  destruct (quiet_events_calm start pre Hpre) as [Hcalm Hsim].
  cbn [completion trace fst snd]. repeat split.
  - rewrite calm_after_quit by exact Hcalm.
    rewrite Hp, (pump_events_quit ms ms' q _ Hms Hq).
    destruct (negb (static_cast_int (wParam q) =? 0)); reflexivity.
  - rewrite !simulated_app, Hsim.
    destruct (pump_events_no_log (pending b)) as [_ ->].
    rewrite length_app, deltas_length, length_map.
    destruct (negb (static_cast_int (wParam q) =? 0)); simpl; lia.
Qed.

Lemma quit_ends_loop_after_current_pass_witness :
  completion (DispatchMessages "Half-Life 2" 0
                [scripted_quiet_burst; scripted_quit_burst;
                 scripted_error_burst]) = Returns 42 /\
  simulated (after_quit (trace (DispatchMessages "Half-Life 2" 0
                [scripted_quiet_burst; scripted_quit_burst;
                 scripted_error_burst]))) = [100] /\
  length (simulated (trace (DispatchMessages "Half-Life 2" 0
                [scripted_quiet_burst; scripted_quit_burst;
                 scripted_error_burst]))) = 2%nat /\
  DispatchMessages "Half-Life 2" 0
    [scripted_quiet_burst; scripted_quit_burst; scripted_error_burst] =
  DispatchMessages "Half-Life 2" 0
    [scripted_quiet_burst; scripted_quit_burst].
Proof.
  exact (quit_ends_loop_after_current_pass "Half-Life 2" 0
           [scripted_quiet_burst] scripted_quit_burst [scripted_error_burst]
           [ {| message := WM_MOUSEMOVE; wParam := 0 |};
             {| message := WM_KEYDOWN; wParam := 65 |} ] []
           (PostQuitMessage 42)
           eq_refl eq_refl eq_refl eq_refl eq_refl).
Defined.

(** C5, as it is worded, does not hold.  A dispatch error is not treated as
    a quit is, and the two differ in more than the log.  On the scripted
    bursts the pass that pumps the quit still calls [SimulateWorldStep]
    and the pass for which [Dispatch] reports the error does not; and
    when the error is reported for the burst that holds the quit carrying
    42, the loop returns the error's 1400: the error goes first. *)
Lemma dispatch_error_not_treated_as_quit :
  simulated (trace (DispatchMessages "Half-Life 2" 16 [scripted_quit_burst])) =
    [100] /\
  simulated (trace (DispatchMessages "Half-Life 2" 16 [scripted_error_burst])) =
    [] /\
  completion (DispatchMessages "Half-Life 2" 16 [scripted_quit_burst]) =
    Returns 42 /\
  completion
    (DispatchMessages "Half-Life 2" 16
       [ {| pending := pending scripted_quit_burst;
            dispatch_rc := dispatch_rc scripted_error_burst;
            now := now scripted_quit_burst |} ]) = Returns 1400.
Proof. repeat split; vm_compute; reflexivity. Qed.

(** C5, amended.  When [Dispatch] reports an abnormal condition, the loop
    stops there and then: the reported code is the exit code of
    [DispatchMessages], no simulation step runs in that pass, and no later
    burst is looked at.  The error goes before a quit: had [Dispatch]
    reported nothing for a burst that holds a quit, the loop would have
    returned the code of the quit and run the simulation step of that
    pass; with the error the code of the quit is dropped and the step is
    not run.  What the two ways of ending share is the log: a warning is
    logged exactly when the exit code is not zero, and an exit with code
    zero logs nothing at warning level. *)
Theorem dispatch_error_stops_loop (name : string) (start : Z)
    (pre : list Burst) (b : Burst) (rest : list Burst) (rc : error_code) :
  forallb quiet pre = true ->
  dispatch_rc b = Some rc ->
  completion (DispatchMessages name start (pre ++ b :: rest)) =
    Returns (value rc) /\
  length (simulated (trace (DispatchMessages name start (pre ++ b :: rest)))) =
    length pre /\
  DispatchMessages name start (pre ++ b :: rest) =
    DispatchMessages name start (pre ++ [b]) /\
  (forall q : MSG,
      first_quit (pending b) = Some q ->
      completion
        (DispatchMessages name start
           (pre ++ [ {| pending := pending b; dispatch_rc := None;
                        now := now b |} ])) =
        Returns (static_cast_int (wParam q)) /\
      length
        (simulated
           (trace
              (DispatchMessages name start
                 (pre ++ [ {| pending := pending b; dispatch_rc := None;
                              now := now b |} ])))) =
        S (length pre)) /\
  (forall (script : list Burst) (tr : list Event) (c : Z),
      DispatchMessages name start script = (tr, Returns c) ->
      existsb is_warning_log tr = negb (c =? 0)).
Proof.
  intros Hpre Hrc.
  rewrite !(DispatchMessages_error name start pre b _ rc) by assumption.
  destruct (quiet_events_calm start pre Hpre) as [Hcalm Hsim].
  cbn [completion trace fst snd].
  split; [reflexivity|]. split; [|split; [reflexivity|split]].
  - rewrite !simulated_app, Hsim.
    destruct (pump_events_no_log (pending b)) as [_ ->].
    rewrite length_app, deltas_length, length_map.
    destruct (error_code_bool rc), (negb (value rc =? 0)); simpl; lia.
  - intros q Hfq.
    destruct (first_quit_pumped _ _ Hfq) as (ms & ms' & Hp & Hms & Hq).
    rewrite (DispatchMessages_quit name start pre
               {| pending := pending b; dispatch_rc := None; now := now b |}
               [] ms ms' q Hpre eq_refl Hp Hms Hq).
    cbn [completion trace fst snd pending now]. split; [reflexivity|].
    rewrite !simulated_app, Hsim.
    destruct (pump_events_no_log (pending b)) as [_ ->].
    rewrite length_app, deltas_length, length_map.
    destruct (negb (static_cast_int (wParam q) =? 0)); simpl; lia.
  - intros script tr c. apply warning_iff_nonzero_exit.
Qed.

Lemma dispatch_error_stops_loop_witness :
  completion (DispatchMessages "Half-Life 2" 0
                [scripted_quiet_burst;
                 {| pending := pending scripted_quit_burst;
                    dispatch_rc := dispatch_rc scripted_error_burst;
                    now := now scripted_quit_burst |};
                 scripted_quit_burst]) = Returns 1400 /\
  length (simulated (trace (DispatchMessages "Half-Life 2" 0
                [scripted_quiet_burst;
                 {| pending := pending scripted_quit_burst;
                    dispatch_rc := dispatch_rc scripted_error_burst;
                    now := now scripted_quit_burst |};
                 scripted_quit_burst]))) = 1%nat /\
  completion (DispatchMessages "Half-Life 2" 0
                [scripted_quiet_burst; scripted_quit_burst]) = Returns 42 /\
  length (simulated (trace (DispatchMessages "Half-Life 2" 0
                [scripted_quiet_burst; scripted_quit_burst]))) = 2%nat.
Proof.
  destruct (dispatch_error_stops_loop "Half-Life 2" 0
              [scripted_quiet_burst]
              {| pending := pending scripted_quit_burst;
                 dispatch_rc := dispatch_rc scripted_error_burst;
                 now := now scripted_quit_burst |}
              [scripted_quit_burst]
              {| value := 1400; category := "system" |} eq_refl eq_refl)
    as (Hcode & Hsteps & _ & Hquit & _).
  destruct (Hquit (PostQuitMessage 42) eq_refl) as [Hqcode Hqsteps].
  split; [exact Hcode|]. split; [exact Hsteps|].
  split; [exact Hqcode | exact Hqsteps].
Defined.

(** C6.  A pass in which [Dispatch] reports nothing abnormal hands
    [SimulateWorldStep] the time since the pass before it: for two
    consecutive passes with clock readings [t1 < t2], the second step is
    fed [t2 - t1], which is not negative. *)
Theorem delta_time_between_passes (name : string) (start : Z)
    (pre : list Burst) (b1 b2 : Burst) (rest : list Burst) :
  forallb quiet (pre ++ [b1]) = true ->
  dispatch_rc b2 = None ->
  now b1 < now b2 ->
  simulated (trace (DispatchMessages name start (pre ++ b1 :: b2 :: rest)))
    !! S (length pre) = Some (now b2 - now b1) /\
  0 <= now b2 - now b1.
Proof.
  intros Hpre Hrc Hlt. split; [|lia].
  destruct (DispatchMessages_trace name start (pre ++ b1 :: b2 :: rest))
    as (tail_ & -> & _).
  replace (pre ++ b1 :: b2 :: rest) with ((pre ++ [b1]) ++ b2 :: rest)
    by (rewrite <- app_assoc; reflexivity).
  rewrite main_loop_quiet by (assumption || reflexivity).
  cbn [main_loop is_done]. rewrite loop_body_closed_form, Hrc.
  match goal with |- context [main_loop name rest ?f2] =>
    destruct (main_loop_extends name rest f2) as [ext ->] end.
  cbn [effects exit_code loop_iteration_start_time app].
  rewrite map_app. cbn [map]. rewrite last_reading_snoc.
  destruct (quiet_events_calm start _ Hpre) as [_ Hsim].
  destruct (pump_events_no_log (pending b2)) as [_ Hp].
  rewrite !simulated_app, Hsim, Hp. cbn [app simulated omap].
  rewrite <- !app_assoc. cbn [app].
  apply list_lookup_middle.
  rewrite deltas_length, length_map, length_app. simpl. lia.
Qed.

Lemma delta_time_between_passes_witness :
  simulated (trace (DispatchMessages "Half-Life 2" 0
                      [scripted_quiet_burst; scripted_quit_burst]))
    !! 1%nat = Some 100 /\
  0 <= 116 - 16.
Proof.
  exact (delta_time_between_passes "Half-Life 2" 0 []
           scripted_quiet_burst scripted_quit_burst []
           eq_refl eq_refl eq_refl).
Defined.

End MainLoopTheorems.

(** ** Calls and their traces *)

Section ProcFacts.
Import Cxx G3Log Sys Launcher.

Lemma bind_returns {A B} (t : list Event) (a : A) (k : A -> Proc B) :
  ((t, Returns a) : Proc A) ≫= k = (t ++ trace (k a), completion (k a)).
Proof. reflexivity. Qed.

(** A step that always comes back leaves its trace in front of what
    follows. *)
Lemma then_returns {B} (m : Proc unit) (k : Proc B) :
  completion m = Returns tt ->
  (m;; k) = (trace m ++ trace k, completion k).
Proof.
  destruct m as [t c]. cbn [completion snd]. intros ->. reflexivity.
Qed.

Lemma loads_app (l1 l2 : list Event) : loads (l1 ++ l2) = loads l1 ++ loads l2.
Proof. unfold loads. apply omap_app. Qed.

Lemma G3LOG_IF_quiet (lvl : Level) (cond : bool) (txt : string) :
  loads (trace (G3LOG_IF lvl cond txt)) = [] /\
  fatal_dialogs (trace (G3LOG_IF lvl cond txt)) = [] /\
  existsb is_get_address (trace (G3LOG_IF lvl cond txt)) = false /\
  existsb is_invoke (trace (G3LOG_IF lvl cond txt)) = false.
Proof. destruct cond; repeat split. Qed.

Lemma fatal_dialogs_app (l1 l2 : list Event) :
  fatal_dialogs (l1 ++ l2) = fatal_dialogs l1 ++ fatal_dialogs l2.
Proof. unfold fatal_dialogs. apply omap_app. Qed.

End ProcFacts.

(** ** The Windows launcher *)

Section LauncherFacts.
Import Cxx G3Log Sys Launcher.

Variable h : Host.
Variables (flags : Flags) (instance : Z) (args positional_flags : list string).
Variables (show_window_flags : Z) (intl : LookupWithFallback).

Local Abbreviation insecure := (FLAGS_insecure_allow_unsigned_module_target flags).
Local Abbreviation run :=
  (BootmgrStartup h flags instance args positional_flags show_window_flags
     intl).

Lemma BootmgrStartup_no_directory (error : error_code) :
  GetApplicationDirectory h instance = Err error ->
  run =
  (hardening h ++
   [EvFatalDialog
      (fatal_payload h intl error
         (l18n intl ("Can't get current directory.  May be app " +:+
                     "located too deep (> 1024)?")))],
   Terminated).
Proof.
  intros Hdir. unfold BootmgrStartup, hardening.
  rewrite Hdir. reflexivity.
Qed.

Lemma BootmgrStartup_load_failure (app_path : string) (error : error_code) :
  GetApplicationDirectory h instance = Ok app_path ->
  FromLibraryOnPath h (boot_manager_path app_path)
    (boot_manager_flags insecure) = Err error ->
  run =
  (hardening h ++
   [EvLoadLibrary (boot_manager_path app_path) (boot_manager_flags insecure);
    EvFatalDialog
      (fatal_payload h intl error
         (l18n_fmt intl "Can't load boot manager '{0}'."
            [boot_manager_path app_path]))],
   Terminated).
Proof.
  intros Hdir Hload. unfold BootmgrStartup, hardening.
  rewrite Hdir. unfold boot_manager_path in *. cbn. rewrite Hload.
  reflexivity.
Qed.

Lemma BootmgrStartup_no_entry (app_path : string)
    (lib : ScopedSharedLibrary) (error : error_code) :
  GetApplicationDirectory h instance = Ok app_path ->
  FromLibraryOnPath h (boot_manager_path app_path)
    (boot_manager_flags insecure) = Ok lib ->
  GetAddressAs h lib kBootManagerMainName = Err error ->
  run =
  (hardening h ++
   [EvLoadLibrary (boot_manager_path app_path) (boot_manager_flags insecure);
    EvGetAddress kBootManagerMainName;
    EvFatalDialog
      (fatal_payload h intl error
         (l18n_fmt intl "Can't get '{0}' entry point from '{1}'."
            [kBootManagerMainName; boot_manager_path app_path]))],
   Terminated).
Proof.
  intros Hdir Hload Hget. unfold BootmgrStartup, hardening.
  rewrite Hdir. unfold boot_manager_path in *. cbn. rewrite Hload. cbn.
  rewrite Hget. reflexivity.
Qed.

Lemma BootmgrStartup_invokes (app_path : string)
    (lib : ScopedSharedLibrary) (entry : BootmgrMain) :
  GetApplicationDirectory h instance = Ok app_path ->
  FromLibraryOnPath h (boot_manager_path app_path)
    (boot_manager_flags insecure) = Ok lib ->
  GetAddressAs h lib kBootManagerMainName = Ok entry ->
  run =
  (hardening h ++
   [EvLoadLibrary (boot_manager_path app_path) (boot_manager_flags insecure);
    EvGetAddress kBootManagerMainName;
    EvBootmgrMain
      (entry_args h flags instance args positional_flags show_window_flags
         intl)],
   Returns
     (entry
        (entry_args h flags instance args positional_flags show_window_flags
           intl))).
Proof.
  intros Hdir Hload Hget. unfold BootmgrStartup, hardening.
  rewrite Hdir. unfold boot_manager_path in *. cbn. rewrite Hload. cbn.
  rewrite Hget. reflexivity.
Qed.

Lemma hardening_quiet :
  loads (hardening h) = [] /\
  fatal_dialogs (hardening h) = [] /\
  existsb is_get_address (hardening h) = false /\
  existsb is_invoke (hardening h) = false.
Proof.
  unfold hardening, G3PLOGE_IF.
  cbn [loads fatal_dialogs omap existsb is_get_address is_invoke orb].
  apply G3LOG_IF_quiet.
Qed.

(** Whatever the host answers, the module is asked for at most once, and
    with the flags computed from the override. *)
Lemma BootmgrStartup_loads :
  loads (trace run) = [] \/
  exists path : string,
    loads (trace run) = [(path, boot_manager_flags insecure)].
Proof.
  destruct hardening_quiet as [Hh _].
  destruct (GetApplicationDirectory h instance) as [p|e] eqn:Hdir.
  - right. exists (boot_manager_path p).
    destruct (FromLibraryOnPath h (boot_manager_path p)
                (boot_manager_flags insecure)) as [lib|e] eqn:Hload.
    + destruct (GetAddressAs h lib kBootManagerMainName) as [f|e] eqn:Hget.
      * rewrite (BootmgrStartup_invokes _ _ _ Hdir Hload Hget).
        cbn [trace fst]. rewrite loads_app, Hh. reflexivity.
      * rewrite (BootmgrStartup_no_entry _ _ _ Hdir Hload Hget).
        cbn [trace fst]. rewrite loads_app, Hh. reflexivity.
    + rewrite (BootmgrStartup_load_failure _ _ Hdir Hload).
      cbn [trace fst]. rewrite loads_app, Hh. reflexivity.
  - left. rewrite (BootmgrStartup_no_directory _ Hdir).
    cbn [trace fst]. rewrite loads_app, Hh. reflexivity.
Qed.

(** Any load the launcher attempts carries the signed-target bit exactly
    when the override is off. *)
Lemma load_flags_follow_override :
  Forall (fun pf : string * Z =>
            requires_signed_target (snd pf) = negb insecure)
         (loads (trace run)).
Proof.
  destruct BootmgrStartup_loads as [-> | [path ->]]; constructor; [|constructor].
  cbn [snd]. destruct insecure; reflexivity.
Qed.

End LauncherFacts.

Section WinMainFacts.
Import Cxx G3Log Sys Launcher.

Variables (build : Build) (h : Host) (instance show_window_flags : Z).


End WinMainFacts.

Section HandOffFacts.
Import Cxx G3Log Sys.

(** The Mac launcher, when nothing fails: load, resolve, call, [exit]. *)
Lemma mac_main_reaches_entry (h : MacLauncher.Host) (argc : Z)
    (argv : list string) (entry : MacLauncher.BootManagerMainFunction) :
  MacLauncher.reaches_entry h entry ->
  exists path : string,
    MacLauncher.main h argc argv =
    ([EvLoadLibrary path MacLauncher.load_flags;
      EvGetAddress MacLauncher.kBootManagerMainFunctionName;
      EvBootmgrMainPosix argc argv;
      EvExit (entry argc argv)],
     Terminated).
Proof.
  intros (size & exec_path & parent_dir & lib & Hsz & Hpath & Hdir & Hload & Hget).
  exists (MacLauncher.framework_path h parent_dir).
  unfold MacLauncher.main. rewrite Hsz. cbn. rewrite Hpath. cbn.
  rewrite Hdir. cbn. rewrite Hload. cbn. rewrite Hget. reflexivity.
Qed.



End HandOffFacts.

(** ** The hand-off protocol *)

Section HandOffTheorems.
Import Cxx G3Log Sys Launcher.



(** C3.  The flags handed to the loader carry the signed-target bit exactly
    when the override is off, and off is what the flag is declared with.
    When the loader then refuses the module, [BootmgrStartup] reports the
    loader's error in one fatal dialog and ends there: the entry symbol is
    never looked up and nothing is called. *)
Theorem unsigned_target_refused_unless_overridden
    (h : Host) (flags : Flags) (instance : Z)
    (args positional_flags : list string) (show_window_flags : Z)
    (intl : LookupWithFallback) (app_path : string) (error : error_code) :
  GetApplicationDirectory h instance = Ok app_path ->
  FromLibraryOnPath h (boot_manager_path app_path)
    (boot_manager_flags (FLAGS_insecure_allow_unsigned_module_target flags))
    = Err error ->
  (forall insecure : bool,
      requires_signed_target (boot_manager_flags insecure) = negb insecure) /\
  FLAGS_insecure_allow_unsigned_module_target default_flags = false /\
  loads (trace (BootmgrStartup h flags instance args positional_flags
                  show_window_flags intl)) =
    [(boot_manager_path app_path,
      boot_manager_flags (FLAGS_insecure_allow_unsigned_module_target flags))] /\
  completion (BootmgrStartup h flags instance args positional_flags
                show_window_flags intl) = Terminated /\
  fatal_dialogs (trace (BootmgrStartup h flags instance args positional_flags
                          show_window_flags intl)) =
    [fatal_payload h intl error
       (l18n_fmt intl "Can't load boot manager '{0}'."
          [boot_manager_path app_path])] /\
  existsb is_get_address
    (trace (BootmgrStartup h flags instance args positional_flags
              show_window_flags intl)) = false /\
  existsb is_invoke
    (trace (BootmgrStartup h flags instance args positional_flags
              show_window_flags intl)) = false.
Proof.
  intros Hdir Hload.
  rewrite (BootmgrStartup_load_failure _ _ _ _ _ _ _ _ _ Hdir Hload).
  destruct (hardening_quiet h) as (Hl & Hf & Hg & Hi).
  cbn [trace completion fst snd].
  rewrite loads_app, fatal_dialogs_app, !existsb_app, Hl, Hf, Hg, Hi.
  repeat split. intros []; reflexivity.
Qed.

(** C4.  When the module loads but the entry symbol cannot be found in it,
    [BootmgrStartup] reports the lookup error in one fatal dialog that names
    the symbol and the module path, and ends there: nothing is called. *)
Theorem missing_entry_symbol_never_invoked
    (h : Host) (flags : Flags) (instance : Z)
    (args positional_flags : list string) (show_window_flags : Z)
    (intl : LookupWithFallback) (app_path : string)
    (lib : ScopedSharedLibrary) (error : error_code) :
  GetApplicationDirectory h instance = Ok app_path ->
  FromLibraryOnPath h (boot_manager_path app_path)
    (boot_manager_flags (FLAGS_insecure_allow_unsigned_module_target flags))
    = Ok lib ->
  GetAddressAs h lib "BootmgrMain" = Err error ->
  completion (BootmgrStartup h flags instance args positional_flags
                show_window_flags intl) = Terminated /\
  fatal_dialogs (trace (BootmgrStartup h flags instance args positional_flags
                          show_window_flags intl)) =
    [fatal_payload h intl error
       (l18n_fmt intl "Can't get '{0}' entry point from '{1}'."
          ["BootmgrMain"; boot_manager_path app_path])] /\
  existsb is_invoke
    (trace (BootmgrStartup h flags instance args positional_flags
              show_window_flags intl)) = false.
Proof.
  intros Hdir Hload Hget.
  rewrite (BootmgrStartup_no_entry _ _ _ _ _ _ _ _ _ _ Hdir Hload Hget).
  destruct (hardening_quiet h) as (Hl & Hf & Hg & Hi).
  cbn [trace completion fst snd].
  rewrite fatal_dialogs_app, !existsb_app, Hf, Hi.
  repeat split.
Qed.



End HandOffTheorems.

Section HandOffWitnesses.
Import Cxx G3Log Sys Launcher TestHost Scenario.


Lemma unsigned_target_refused_witness :
  completion (BootmgrStartup (host unsigned_module "hl2.exe") default_flags
                4194304 ["hl2.exe"] [] 5 (fun s => s)) = Terminated /\
  existsb is_get_address
    (trace (BootmgrStartup (host unsigned_module "hl2.exe") default_flags
              4194304 ["hl2.exe"] [] 5 (fun s => s))) = false /\
  existsb is_invoke
    (trace (BootmgrStartup (host unsigned_module "hl2.exe") default_flags
              4194304 ["hl2.exe"] [] 5 (fun s => s))) = false.
Proof.
  destruct (unsigned_target_refused_unless_overridden
              (host unsigned_module "hl2.exe") default_flags
              4194304 ["hl2.exe"] [] 5 (fun s => s) app_directory
              (win32_error ERROR_INVALID_IMAGE_HASH))
    as (_ & _ & _ & Hend & _ & Hget & Hinvoke).
  - reflexivity.
  - vm_compute. reflexivity.
  - repeat split; assumption.
Defined.

Lemma missing_entry_symbol_witness :
  completion (BootmgrStartup (host module_without_entry "hl2.exe")
                default_flags 4194304 ["hl2.exe"] [] 5 (fun s => s)) =
    Terminated /\
  existsb is_invoke
    (trace (BootmgrStartup (host module_without_entry "hl2.exe")
              default_flags 4194304 ["hl2.exe"] [] 5 (fun s => s))) = false.
Proof.
  destruct (missing_entry_symbol_never_invoked
              (host module_without_entry "hl2.exe") default_flags
              4194304 ["hl2.exe"] [] 5 (fun s => s) app_directory
              {| module_handle := 1 |} (win32_error ERROR_PROC_NOT_FOUND))
    as (Hend & _ & Hinvoke).
  - reflexivity.
  - vm_compute. reflexivity.
  - vm_compute. reflexivity.
  - split; assumption.
Defined.


(** The testable properties of the launcher, run on the scripted host. *)

Example release_build_refuses_unsigned_module :
  completion (WinMain Release (host unsigned_module "hl2.exe -game ep2")
                4194304 5) = Terminated /\
  loads (trace (WinMain Release (host unsigned_module "hl2.exe -game ep2")
                  4194304 5)) =
    [("C:\hl2\whitebox-boot-manager.dll", 0x88)].
Proof. split; vm_compute; reflexivity. Qed.

Example debug_build_loads_unsigned_module :
  completion (WinMain Debug (host unsigned_module "hl2.exe -game ep2")
                4194304 5) = Returns 7 /\
  loads (trace (WinMain Debug (host unsigned_module "hl2.exe -game ep2")
                  4194304 5)) =
    [("C:\hl2\whitebox-boot-manager.dll", 0x08)].
Proof. split; vm_compute; reflexivity. Qed.

End HandOffWitnesses.

(** ** The input queue *)

Section InputQueueTheorems.
Import InputQueue.
Context {T : Type}.

(** Nothing is lost, doubled or moved: what the drains handed out, followed
    by what is still queued, is what was queued at first followed by what
    was pushed. *)
Lemma run_conserves (calls : list (Call T)) (q : InputQueue T) :
  concat (fst (run calls q)) ++ snd (run calls q) = q ++ pushed calls.
Proof.
  revert q. induction calls as [|[event|] calls IH]; intros q; cbn [run pushed].
  - cbn. rewrite app_nil_r. reflexivity.
  - rewrite IH. unfold Push. rewrite <- app_assoc. reflexivity.
  - unfold DrainAll. specialize (IH []).
    destruct (run calls []) as [results q'']. cbn [fst snd concat] in *.
    rewrite <- app_assoc, IH. reflexivity.
Qed.

Lemma run_then_drain (calls : list (Call T)) (q : InputQueue T) :
  run (calls ++ [CallDrainAll]) q =
  (fst (run calls q) ++ [snd (run calls q)], []).
Proof.
  revert q. induction calls as [|[event|] calls IH]; intros q; cbn [app run].
  - reflexivity.
  - apply IH.
  - unfold DrainAll. rewrite (IH []).
    destruct (run calls []) as [results q'']. reflexivity.
Qed.

(** C7.  For every sequence of [Push] and [DrainAll] calls on a queue that
    starts empty, the results of the drains, put together in call order, and
    then what is still waiting in the queue, are the pushed events in push
    order; once a [DrainAll] has closed the sequence the drains alone are the
    pushed events and the queue is empty.  [DrainAll] on the empty queue
    gives the empty sequence and leaves the queue empty; being a function,
    it always answers. *)
Theorem drains_return_pushes_in_order (calls : list (Call T)) :
  concat (fst (run calls empty)) ++ snd (run calls empty) = pushed calls /\
  concat (fst (run (calls ++ [CallDrainAll]) empty)) = pushed calls /\
  snd (run (calls ++ [CallDrainAll]) empty) = empty /\
  DrainAll (@empty T) = ([], empty).
Proof.
  repeat split.
  - apply (run_conserves calls []).
  - rewrite run_then_drain. cbn [fst]. rewrite concat_app. cbn [concat].
    rewrite app_nil_r. apply (run_conserves calls []).
  - rewrite run_then_drain. reflexivity.
Qed.

End InputQueueTheorems.

Example queue_keeps_order :
  InputQueue.run
    [InputQueue.CallPush 1; InputQueue.CallPush 2; InputQueue.CallDrainAll;
     InputQueue.CallDrainAll; InputQueue.CallPush 3; InputQueue.CallDrainAll]
    InputQueue.empty =
  ([[1; 2]; []; [3]], []).
Proof. reflexivity. Qed.

(** ** The SDL message loop *)

Section SdlLoopTheorems.
Import Cxx G3Log Sys SdlLoop.

Lemma poll_events_closed_form (polled : list SDL_Event) (is_done : bool) :
  poll_events polled is_done =
  (map EvPollEvent polled, Returns (is_done || existsb is_quit_event polled)).
Proof.
  revert is_done. induction polled as [|e polled IH]; intros d; cbn [poll_events].
  - cbn. rewrite orb_false_r. reflexivity.
  - unfold is_quit_event at 1. cbn [existsb map].
    destruct (type e =? SDL_QUIT); rewrite IH; cbn.
    + rewrite orb_true_r. reflexivity.
    + reflexivity.
Qed.

Lemma main_loop_completion (script : list (list SDL_Event)) (is_done : bool) :
  completion (main_loop script is_done) =
  if is_done || quit_in script then Returns tt else Unfinished.
Proof.
  revert is_done. induction script as [|polled script IH]; intros d;
    cbn [main_loop].
  - destruct d; reflexivity.
  - destruct d; [reflexivity|].
    rewrite poll_events_closed_form. cbn [orb quit_in existsb].
    specialize (IH (existsb is_quit_event polled)).
    cbn in *. exact IH.
Qed.

Lemma DispatchMessages_completion (script : list (list SDL_Event)) :
  completion (DispatchMessages script) =
  if quit_in script then Returns 0 else Unfinished.
Proof.
  unfold DispatchMessages.
  pose proof (main_loop_completion script false) as H.
  destruct (main_loop script false) as [t c]. cbn in *. rewrite H.
  destruct (quit_in script); reflexivity.
Qed.

(** C8.  On the SDL build [DispatchMessages] returns 0 whenever it returns,
    and it returns as soon as the events hold a quit: what the quit event
    carries is never read.  [KernelMain], once SDL and the window are up,
    hands that 0 on. *)
Theorem sdl_loop_always_returns_zero
    (script : list (list SDL_Event)) (inp : Input)
    (kernel_args : Kernel.KernelArgs) :
  completion (DispatchMessages script) =
    (if quit_in script then Returns 0 else Unfinished) /\
  completion (KernelMain inp kernel_args) =
    (if startup_ok inp
     then if quit_in (polled_events inp) then Returns 0 else Unfinished
     else Terminated).
Proof.
  split; [apply DispatchMessages_completion|].
  unfold KernelMain, startup_ok, or_fatal.
  pose proof (DispatchMessages_completion (polled_events inp)) as H.
  destruct (DispatchMessages (polled_events inp)) as [t c]. cbn in H.
  destruct (sdl_initializer inp), (sdl_image_initializer inp),
    (sdl_window inp), (window_icon_result inp); cbn; try reflexivity;
    exact H.
Qed.

Example sdl_quit_code_is_dropped :
  completion
    (DispatchMessages
       [ [ {| type := 0x300; code := 0 |} ];
         [ {| type := SDL_QUIT; code := 42 |};
           {| type := 0x300; code := 1 |} ] ]) = Returns 0.
Proof. reflexivity. Qed.

End SdlLoopTheorems.

(** ** [ScopedNewHandler] *)

Section NewHandlerTheorems.
Import NewHandler.

(** C10.  Constructing a [ScopedNewHandler] with [h] while [p] is installed
    installs [h]; destroying it installs [p] again.  A block that declares
    one sees [h] on entry and leaves [p] installed, whatever its body does
    to the handler in between. *)
Theorem scoped_new_handler_round_trip (h p : new_handler) :
  get_new_handler (snd (construct h p)) = h /\
  get_new_handler (destroy (fst (construct h p)) (snd (construct h p))) = p /\
  (forall (A : Type) (body : Installed -> A * Installed),
      fst (scope h body p) = fst (body h) /\
      get_new_handler (snd (scope h body p)) = p).
Proof.
  repeat split.
  - unfold scope. cbn. destruct (body h); reflexivity.
  - unfold scope. cbn. destruct (body h); reflexivity.
Qed.

(** The repository's own test passes whenever the handler under test is not
    the one already installed. *)
Lemma SetNewFailureHandlerInScope_passes (h p : new_handler) :
  h <> p -> SetNewFailureHandlerInScope h p = (true, true, true).
Proof.
  intros Hne. unfold SetNewFailureHandlerInScope, scope, get_new_handler. cbn.
  rewrite Z.eqb_refl. apply Z.eqb_neq in Hne. rewrite Hne. reflexivity.
Qed.

End NewHandlerTheorems.

(** * Further properties of the code *)

(** ** The Windows message loop, beyond the claims *)

Section MainLoopExtras.
Import Cxx G3Log Sys Win32Loop TraceReading Scenario.

Lemma total_app (l1 l2 : list Z) : total (l1 ++ l2) = total l1 + total l2.
Proof.
  unfold total. induction l1 as [|x l1 IH]; cbn [app foldr]; [reflexivity|].
  rewrite IH. lia.
Qed.

Lemma total_deltas (start : Z) (readings : list Z) :
  total (deltas start readings) = last_reading start readings - start.
Proof.
  revert start. induction readings as [|t r IH]; intros start.
  - unfold last_reading, total. cbn. lia.
  - cbn [deltas]. rewrite last_reading_cons. unfold total in *.
    cbn [foldr]. rewrite IH. lia.
Qed.

(** X1.  Over a run of the loop that a quit ends, the times handed to
    [SimulateWorldStep] add up to the time between the reading taken before
    the loop and the reading of the last pass: no time is left out and none
    is counted twice.  While the loop is still turning the same holds up to
    the latest pass. *)
Theorem simulated_time_adds_up (name : string) (start : Z)
    (pre : list Burst) (b : Burst) (rest : list Burst)
    (ms ms' : list MSG) (q : MSG) :
  forallb quiet pre = true ->
  dispatch_rc b = None ->
  pending b = ms ++ q :: ms' ->
  no_quit ms = true ->
  is_quit q = true ->
  total (simulated (trace (DispatchMessages name start (pre ++ b :: rest)))) =
    now b - start /\
  total (simulated (trace (DispatchMessages name start pre))) =
    last_reading start (map now pre) - start.
Proof.
  intros Hpre Hrc Hp Hms Hq. split.
  - rewrite (DispatchMessages_quit name start pre b rest ms ms' q) by assumption.
    destruct (quiet_events_calm start pre Hpre) as [_ Hsim].
    destruct (pump_events_no_log (pending b)) as [_ Hpump].
    cbn [trace fst]. rewrite !simulated_app, Hsim, Hpump.
    cbn [app]. rewrite total_app, total_deltas.
    destruct (negb (static_cast_int (wParam q) =? 0)); unfold total; cbn; lia.
  - rewrite quiet_script_deltas by exact Hpre. apply total_deltas.
Qed.

Lemma simulated_time_adds_up_witness :
  total (simulated (trace (DispatchMessages "Half-Life 2" 0
           [scripted_quiet_burst; scripted_quit_burst;
            scripted_error_burst]))) = 116 - 0 /\
  total (simulated (trace (DispatchMessages "Half-Life 2" 0
           [scripted_quiet_burst]))) = 16 - 0.
Proof.
  exact (simulated_time_adds_up "Half-Life 2" 0
           [scripted_quiet_burst] scripted_quit_burst [scripted_error_burst]
           [ {| message := WM_MOUSEMOVE; wParam := 0 |};
             {| message := WM_KEYDOWN; wParam := 65 |} ] []
           (PostQuitMessage 42)
           eq_refl eq_refl eq_refl eq_refl eq_refl).
Defined.

(** X2.  With a clock that never runs backwards, no pass of a run that a
    quit ends hands [SimulateWorldStep] a negative time. *)
Theorem no_negative_frame_time (name : string) (start : Z)
    (pre : list Burst) (b : Burst) (rest : list Burst)
    (ms ms' : list MSG) (q : MSG) :
  forallb quiet pre = true ->
  dispatch_rc b = None ->
  pending b = ms ++ q :: ms' ->
  no_quit ms = true ->
  is_quit q = true ->
  StronglySorted Z.le (start :: map now (pre ++ [b])) ->
  Forall (fun d => 0 <= d)
    (simulated (trace (DispatchMessages name start (pre ++ b :: rest)))).
Proof.
  intros Hpre Hrc Hp Hms Hq Hsorted.
  rewrite (DispatchMessages_quit name start pre b rest ms ms' q) by assumption.
  destruct (quiet_events_calm start pre Hpre) as [_ Hsim].
  destruct (pump_events_no_log (pending b)) as [_ Hpump].
  cbn [trace fst]. rewrite !simulated_app, Hsim, Hpump. cbn [app].
  assert (Hall : Forall (fun d => 0 <= d) (deltas start (map now (pre ++ [b])))).
  { apply deltas_nonneg. exact Hsorted. }
  clear Hsorted Hsim. revert start Hall.
  induction pre as [|p pre IH]; intros start Hall.
  - cbn in Hall. apply Forall_inv in Hall.
    unfold last_reading. cbn [map last default app].
    destruct (negb (static_cast_int (wParam q) =? 0)); cbn;
      repeat constructor; exact Hall.
  - cbn [map app deltas] in *. rewrite last_reading_cons.
    constructor.
    + apply Forall_inv in Hall. exact Hall.
    + apply IH.
      * cbn [forallb] in Hpre. apply andb_prop in Hpre as [_ Hpre]. exact Hpre.
      * apply Forall_inv_tail in Hall. exact Hall.
Qed.

Lemma no_negative_frame_time_witness :
  Forall (fun d => 0 <= d)
    (simulated (trace (DispatchMessages "Half-Life 2" 0
                         [scripted_quiet_burst; scripted_quit_burst]))).
Proof.
  apply (no_negative_frame_time "Half-Life 2" 0
           [scripted_quiet_burst] scripted_quit_burst []
           [ {| message := WM_MOUSEMOVE; wParam := 0 |};
             {| message := WM_KEYDOWN; wParam := 65 |} ] []
           (PostQuitMessage 42)
           eq_refl eq_refl eq_refl eq_refl eq_refl).
  cbn [map app now scripted_quiet_burst scripted_quit_burst].
  repeat constructor; lia.
Defined.

(** X3.  When the burst in which a quit is pumped also has [Dispatch]
    report an abnormal condition, the error wins: [DispatchMessages]
    returns the reported code, the code the quit carried is dropped, and
    that pass does not reach [SimulateWorldStep]. *)
Theorem dispatch_error_overrides_quit (name : string) (start : Z)
    (pre : list Burst) (b : Burst) (rest : list Burst)
    (q : MSG) (rc : error_code) :
  forallb quiet pre = true ->
  first_quit (pending b) = Some q ->
  dispatch_rc b = Some rc ->
  completion (DispatchMessages name start (pre ++ b :: rest)) =
    Returns (value rc) /\
  existsb is_quit_pump
    (trace (DispatchMessages name start (pre ++ b :: rest))) = true /\
  no_step_after_quit (trace (DispatchMessages name start (pre ++ b :: rest))).
Proof.
  intros Hpre Hfq Hrc.
  rewrite (DispatchMessages_error name start pre b rest rc) by assumption.
  destruct (quiet_events_calm start pre Hpre) as [Hcalm _].
  destruct (first_quit_pumped _ _ Hfq) as (ms & ms' & Hp & Hms & Hq).
  cbn [completion trace fst snd]. repeat split.
  - rewrite !existsb_app. apply orb_true_iff. right.
    apply orb_true_iff. left. rewrite Hp. clear Hp Hfq.
    induction ms as [|m ms IH]; cbn [app pump_events existsb is_quit_pump].
    + rewrite Hq. reflexivity.
    + cbn [no_quit forallb] in Hms. apply andb_prop in Hms as [Hm Hms].
      destruct (is_quit m); [discriminate|]. cbn [orb existsb].
      apply IH. exact Hms.
  - unfold no_step_after_quit.
    rewrite calm_after_quit by exact Hcalm.
    rewrite Hp, (pump_events_quit ms ms' q _ Hms Hq).
    destruct (error_code_bool rc), (negb (value rc =? 0)); reflexivity.
Qed.

Lemma dispatch_error_overrides_quit_witness :
  completion
    (DispatchMessages "Half-Life 2" 0
       [scripted_quiet_burst;
        {| pending := [PostQuitMessage 42];
           dispatch_rc := Some {| value := 1400; category := "system" |};
           now := 116 |}]) = Returns 1400.
Proof.
  apply (dispatch_error_overrides_quit "Half-Life 2" 0
           [scripted_quiet_burst]
           {| pending := [PostQuitMessage 42];
              dispatch_rc := Some {| value := 1400; category := "system" |};
              now := 116 |}
           [] (PostQuitMessage 42) {| value := 1400; category := "system" |}
           eq_refl eq_refl eq_refl).
Defined.

End MainLoopExtras.

(** ** The first Windows message loop *)

Section LegacyLoopExtras.
Import Cxx G3Log Sys Win32Loop TraceReading Scenario.

Lemma legacy_main_loop_no_quit (pre rest : list Burst) (f : Frame) :
  forallb (fun b => no_quit (pending b)) pre = true ->
  is_done f = false ->
  LegacyWin32Loop.main_loop (pre ++ rest) f =
  LegacyWin32Loop.main_loop rest
    {| exit_code := exit_code f;
       is_done := false;
       loop_iteration_start_time := loop_iteration_start_time f;
       effects := effects f ++ LegacyWin32Loop.pumped pre |}.
Proof.
  revert f. induction pre as [|b pre IH]; intros f Hpre Hf.
  - cbn. rewrite app_nil_r, <- Hf. destruct f; reflexivity.
  - cbn [forallb] in Hpre. apply andb_prop in Hpre as [Hb Hpre].
    cbn [app LegacyWin32Loop.main_loop]. rewrite Hf.
    unfold Dispatch. cbn [snd]. rewrite pump_closed_form.
    rewrite (first_quit_none _ Hb), IH by (assumption || exact Hf).
    cbn [exit_code is_done loop_iteration_start_time effects
         LegacyWin32Loop.pumped].
    rewrite <- app_assoc. reflexivity.
Qed.

Lemma legacy_pumped_quiet (pre : list Burst) :
  simulated (LegacyWin32Loop.pumped pre) = [] /\
  existsb is_warning_log (LegacyWin32Loop.pumped pre) = false.
Proof.
  induction pre as [|b pre [IH1 IH2]]; [split; reflexivity|].
  cbn [LegacyWin32Loop.pumped].
  destruct (pump_events_no_log (pending b)) as [Hl Hs].
  rewrite simulated_app, existsb_app, Hs, Hl, IH1, IH2. split; reflexivity.
Qed.

(** X4.  The first Windows loop returns the code of the first quit message
    it pumps, whatever [Dispatch] reported on the way: bursts before the
    quit may carry dispatch errors and the loop still goes on.  It never
    calls the simulation step, logs a warning exactly when the code is not
    zero, and looks at no burst behind the one with the quit. *)
Theorem legacy_loop_returns_first_quit (name : string)
    (pre : list Burst) (b : Burst) (rest : list Burst)
    (ms ms' : list MSG) (q : MSG) :
  forallb (fun b => no_quit (pending b)) pre = true ->
  pending b = ms ++ q :: ms' ->
  no_quit ms = true ->
  is_quit q = true ->
  completion (LegacyWin32Loop.DispatchMessages name (pre ++ b :: rest)) =
    Returns (static_cast_int (wParam q)) /\
  simulated (trace (LegacyWin32Loop.DispatchMessages name (pre ++ b :: rest)))
    = [] /\
  existsb is_warning_log
    (trace (LegacyWin32Loop.DispatchMessages name (pre ++ b :: rest))) =
    negb (static_cast_int (wParam q) =? 0) /\
  LegacyWin32Loop.DispatchMessages name (pre ++ b :: rest) =
    LegacyWin32Loop.DispatchMessages name (pre ++ [b]).
Proof.
  intros Hpre Hp Hms Hq.
  assert (Hrun : forall rest',
    LegacyWin32Loop.main_loop (pre ++ b :: rest')
      {| exit_code := 0; is_done := false;
         loop_iteration_start_time := 0; effects := [] |} =
    Left {| exit_code := static_cast_int (wParam q);
            is_done := true;
            loop_iteration_start_time := 0;
            effects := LegacyWin32Loop.pumped pre ++ pump_events (pending b) |}).
  { intros rest'. rewrite legacy_main_loop_no_quit by (assumption || reflexivity).
    cbn [LegacyWin32Loop.main_loop is_done]. unfold Dispatch. cbn [snd].
    rewrite pump_closed_form, Hp, (first_quit_found _ _ _ Hms Hq).
    cbn [effects app exit_code loop_iteration_start_time].
    destruct rest'; reflexivity. }
  unfold LegacyWin32Loop.DispatchMessages. rewrite !Hrun.
  destruct (legacy_pumped_quiet pre) as [Hs Hw].
  destruct (pump_events_no_log (pending b)) as [Hl Hsb].
  cbn [exit_code]. unfold log_if.
  destruct (negb (static_cast_int (wParam q) =? 0));
    cbn [completion trace fst snd effects record exit_code];
    rewrite ?simulated_app, ?existsb_app, Hs, Hw, Hsb, Hl; repeat split.
Qed.

Lemma legacy_loop_returns_first_quit_witness :
  completion
    (LegacyWin32Loop.DispatchMessages "Half-Life 2"
       [scripted_error_burst; scripted_quit_burst; scripted_quiet_burst]) =
    Returns 42.
Proof.
  apply (legacy_loop_returns_first_quit "Half-Life 2"
           [scripted_error_burst] scripted_quit_burst [scripted_quiet_burst]
           [ {| message := WM_MOUSEMOVE; wParam := 0 |};
             {| message := WM_KEYDOWN; wParam := 65 |} ] []
           (PostQuitMessage 42) eq_refl eq_refl eq_refl eq_refl).
Defined.

End LegacyLoopExtras.

(** ** The SDL loop and its start-up, beyond the claims *)

Section SdlExtras.
Import Cxx G3Log Sys SdlLoop TraceReading HostVariants.


Lemma sdl_main_loop_trace (script : list (list SDL_Event)) :
  trace (main_loop script false) = concat (map pass_events (passes script)).
Proof.
  induction script as [|polled script IH]; [reflexivity|].
  cbn [main_loop passes]. rewrite poll_events_closed_form.
  cbn [orb].
  destruct (existsb is_quit_event polled) eqn:E.
  - unfold pass_events.
    destruct script; cbn; rewrite ?app_nil_r, <- ?app_assoc; reflexivity.
  - cbn [map concat]. rewrite <- IH. unfold pass_events. cbn.
    rewrite <- app_assoc. reflexivity.
Qed.

Lemma sdl_dispatch_trace (script : list (list SDL_Event)) :
  trace (DispatchMessages script) = concat (map pass_events (passes script)).
Proof.
  unfold DispatchMessages. rewrite <- sdl_main_loop_trace.
  destruct (main_loop script false) as [t [[]| |]]; cbn;
    rewrite ?app_nil_r; reflexivity.
Qed.

(** X5.  The SDL loop polls every event of every burst up to and including
    the first burst that holds a quit, also the events queued behind the
    quit in that burst; it sleeps 5 ms at the end of each of these passes,
    the last one too, and polls nothing after: bursts behind the one with
    the quit change nothing. *)
Theorem sdl_loop_drains_quit_burst (script : list (list SDL_Event)) :
  trace (DispatchMessages script) = concat (map pass_events (passes script)) /\
  (forall (pre : list (list SDL_Event)) (polled : list SDL_Event)
          (rest : list (list SDL_Event)),
      script = pre ++ polled :: rest ->
      forallb (fun p => negb (existsb is_quit_event p)) pre = true ->
      existsb is_quit_event polled = true ->
      trace (DispatchMessages script) =
      concat (map pass_events pre) ++ pass_events polled).
Proof.
  split; [apply sdl_dispatch_trace|].
  intros pre polled rest -> Hpre Hquit. rewrite sdl_dispatch_trace.
  induction pre as [|p pre IH].
  - cbn [app passes]. rewrite Hquit. cbn. rewrite app_nil_r. reflexivity.
  - cbn [forallb] in Hpre. apply andb_prop in Hpre as [Hp Hpre].
    apply negb_true_iff in Hp.
    change ((p :: pre) ++ polled :: rest) with (p :: (pre ++ polled :: rest)).
    cbn [passes]. rewrite Hp. cbn [map concat]. rewrite (IH Hpre).
    rewrite app_assoc. reflexivity.
Qed.



Lemma land_mask (flags mask bit : Z) :
  Z.land mask bit = bit -> Z.land (Z.land flags mask) bit = Z.land flags bit.
Proof. intros H. rewrite <- Z.land_assoc, H. reflexivity. Qed.

(** X7.  [GetWindowGraphicsContext] looks at the OpenGL, Vulkan and Metal
    bits only, in this order of precedence, and answers "N/A" exactly when
    none of the three is set. *)
Theorem graphics_context_by_precedence (flags : Z) :
  GetWindowGraphicsContext flags =
    GetWindowGraphicsContext
      (Z.land flags (Z.lor kUseOpengl (Z.lor kUseVulkan kUseMetal))) /\
  (GetWindowGraphicsContext flags = "N/A" <->
   Z.land flags kUseOpengl <> kUseOpengl /\
   Z.land flags kUseVulkan <> kUseVulkan /\
   Z.land flags kUseMetal <> kUseMetal) /\
  (Z.land flags kUseOpengl = kUseOpengl ->
   GetWindowGraphicsContext flags = "OpenGL") /\
  (Z.land flags kUseOpengl <> kUseOpengl ->
   Z.land flags kUseVulkan = kUseVulkan ->
   GetWindowGraphicsContext flags = "Vulkan").
Proof.
  unfold GetWindowGraphicsContext.
  rewrite !land_mask by reflexivity.
  split; [reflexivity|].
  destruct (Z.eqb_spec (Z.land flags kUseOpengl) kUseOpengl) as [Ho|Ho];
    destruct (Z.eqb_spec (Z.land flags kUseVulkan) kUseVulkan) as [Hv|Hv];
    destruct (Z.eqb_spec (Z.land flags kUseMetal) kUseMetal) as [Hm|Hm];
    repeat split; intros; try discriminate; try tauto; try reflexivity;
    try (exfalso; tauto).
Qed.

End SdlExtras.

(** ** Nested [ScopedNewHandler] blocks *)

Section NestingExtras.
Import NewHandler Nesting.

Lemma last_cons_default {B : Type} (h : B) (hs : list B) (p : B) :
  List.last (h :: hs) p = List.last hs h.
Proof.
  revert h p. induction hs as [|n hs IH]; intros h p; [reflexivity|].
  change (List.last (h :: n :: hs) p) with (List.last (n :: hs) p).
  rewrite !IH. reflexivity.
Qed.

(** X8.  Blocks that declare a [ScopedNewHandler] nest: the innermost body
    runs with the handler of the innermost block installed, and when the
    blocks are left the handler installed before the outermost one is back,
    whatever the body did to it. *)
Theorem nested_scopes_unwind {A : Type} (hs : list new_handler)
    (body : Installed -> A * Installed) (p : new_handler) :
  fst (nested hs body p) = fst (body (List.last hs p)) /\
  (hs <> [] -> get_new_handler (snd (nested hs body p)) = p).
Proof.
  split.
  - revert p. induction hs as [|h hs IH]; intros p; [reflexivity|].
    rewrite last_cons_default. cbn [nested]. unfold scope. cbn.
    specialize (IH h). destruct (nested hs body h) as [a g2].
    exact IH.
  - destruct hs as [|h hs]; [congruence|]. intros _.
    cbn [nested]. unfold scope. cbn.
    destruct (nested hs body h). reflexivity.
Qed.

End NestingExtras.

(** ** The Windows launcher, beyond the claims *)

Section LauncherExtras.
Import Cxx G3Log Sys Launcher TraceReading HostVariants TestHost.

Lemma entry_calls_app (l1 l2 : list Event) :
  entry_calls (l1 ++ l2) = entry_calls l1 ++ entry_calls l2.
Proof. unfold entry_calls. apply omap_app. Qed.

Lemma hardening_calls_nothing (h : Host) :
  entry_calls (hardening h) = [] /\
  count is_hardening (hardening h) = 1%nat /\
  count is_warning_log (hardening h) =
    (if error_code_bool (SetDefaultDllDirectories h search_flags)
     then 1 else 0)%nat.
Proof.
  unfold hardening, G3PLOGE_IF, G3LOG_IF.
  destruct (error_code_bool _); repeat split.
Qed.

Lemma BootmgrStartup_entry_calls
    (h : Host) (flags : Flags) (instance : Z)
    (args positional_flags : list string) (show_window_flags : Z)
    (intl : LookupWithFallback) :
  entry_calls (trace (BootmgrStartup h flags instance args positional_flags
                        show_window_flags intl)) =
    [entry_args h flags instance args positional_flags show_window_flags intl]
  \/
  entry_calls (trace (BootmgrStartup h flags instance args positional_flags
                        show_window_flags intl)) = [].
Proof.
  destruct (hardening_calls_nothing h) as (Hc & _ & _).
  destruct (GetApplicationDirectory h instance) as [p|e] eqn:Hdir.
  - destruct (FromLibraryOnPath h (boot_manager_path p)
                (boot_manager_flags
                   (FLAGS_insecure_allow_unsigned_module_target flags)))
      as [lib|e] eqn:Hload.
    + destruct (GetAddressAs h lib kBootManagerMainName) as [f|e] eqn:Hget.
      * left.
        rewrite (BootmgrStartup_invokes _ _ _ _ _ _ _ _ _ _ Hdir Hload Hget).
        cbn [trace fst]. rewrite entry_calls_app, Hc. reflexivity.
      * right.
        rewrite (BootmgrStartup_no_entry _ _ _ _ _ _ _ _ _ _ Hdir Hload Hget).
        cbn [trace fst]. rewrite entry_calls_app, Hc. reflexivity.
    + right. rewrite (BootmgrStartup_load_failure _ _ _ _ _ _ _ _ _ Hdir Hload).
      cbn [trace fst]. rewrite entry_calls_app, Hc. reflexivity.
  - right. rewrite (BootmgrStartup_no_directory _ _ _ _ _ _ _ _ Hdir).
    cbn [trace fst]. rewrite entry_calls_app, Hc. reflexivity.
Qed.

(** X9.  [BootmgrStartup] ends in one of two ways and no other.  When the
    application directory is known, the module at the boot manager path
    loads with the flags of the launcher and [BootmgrMain] is found in it,
    it returns what that entry point returns for the arguments of the
    launcher, having called it once and shown no fatal dialog.  In every
    other case the process ends in it with exactly one fatal dialog and
    the entry point never called. *)
Theorem BootmgrStartup_calls_once_or_reports_once
    (h : Host) (flags : Flags) (instance : Z)
    (args positional_flags : list string) (show_window_flags : Z)
    (intl : LookupWithFallback) :
  match GetApplicationDirectory h instance with
  | Ok app_path =>
      match FromLibraryOnPath h (boot_manager_path app_path)
              (boot_manager_flags
                 (FLAGS_insecure_allow_unsigned_module_target flags)) with
      | Ok boot_manager =>
          match GetAddressAs h boot_manager kBootManagerMainName with
          | Ok boot_manager_main =>
              completion (BootmgrStartup h flags instance args
                            positional_flags show_window_flags intl) =
                Returns (boot_manager_main
                           (entry_args h flags instance args positional_flags
                              show_window_flags intl)) /\
              entry_calls (trace (BootmgrStartup h flags instance args
                                    positional_flags show_window_flags intl)) =
                [entry_args h flags instance args positional_flags
                   show_window_flags intl] /\
              fatal_dialogs (trace (BootmgrStartup h flags instance args
                                      positional_flags show_window_flags
                                      intl)) = []
          | Err _ =>
              ends_in_one_dialog
                (BootmgrStartup h flags instance args positional_flags
                   show_window_flags intl)
          end
      | Err _ =>
          ends_in_one_dialog
            (BootmgrStartup h flags instance args positional_flags
               show_window_flags intl)
      end
  | Err _ =>
      ends_in_one_dialog
        (BootmgrStartup h flags instance args positional_flags
           show_window_flags intl)
  end.
Proof.
  destruct (hardening_quiet h) as (_ & Hf & _ & _).
  destruct (hardening_calls_nothing h) as (Hc & _ & _).
  unfold ends_in_one_dialog.
  destruct (GetApplicationDirectory h instance) as [p|e] eqn:Hdir.
  - destruct (FromLibraryOnPath h (boot_manager_path p)
                (boot_manager_flags
                   (FLAGS_insecure_allow_unsigned_module_target flags)))
      as [lib|e] eqn:Hload.
    + destruct (GetAddressAs h lib kBootManagerMainName) as [f|e] eqn:Hget.
      * rewrite (BootmgrStartup_invokes _ _ _ _ _ _ _ _ _ _ Hdir Hload Hget).
        cbn [trace completion fst snd].
        rewrite entry_calls_app, fatal_dialogs_app, Hc, Hf.
        repeat split.
      * rewrite (BootmgrStartup_no_entry _ _ _ _ _ _ _ _ _ _ Hdir Hload Hget).
        cbn [trace completion fst snd].
        rewrite entry_calls_app, fatal_dialogs_app, Hc, Hf. repeat split.
    + rewrite (BootmgrStartup_load_failure _ _ _ _ _ _ _ _ _ Hdir Hload).
      cbn [trace completion fst snd].
      rewrite entry_calls_app, fatal_dialogs_app, Hc, Hf. repeat split.
  - rewrite (BootmgrStartup_no_directory _ _ _ _ _ _ _ _ Hdir).
    cbn [trace completion fst snd].
    rewrite entry_calls_app, fatal_dialogs_app, Hc, Hf. repeat split.
Qed.

(** X10.  The search order for dependent libraries is restricted before
    anything else happens in [BootmgrStartup], once, to the system and user
    directories.  When the restriction cannot be applied this is worth one
    warning and nothing more: the result, the load and the dialogs are what
    they would have been. *)
Theorem dll_search_hardening_comes_first
    (h : Host) (flags : Flags) (instance : Z)
    (args positional_flags : list string) (show_window_flags : Z)
    (intl : LookupWithFallback) (rc : error_code) :
  (exists rest : list Event,
      trace (BootmgrStartup h flags instance args positional_flags
               show_window_flags intl) =
      EvSetDefaultDllDirectories 0xC00 :: rest) /\
  count is_hardening
    (trace (BootmgrStartup h flags instance args positional_flags
              show_window_flags intl)) = 1%nat /\
  count is_warning_log
    (trace (BootmgrStartup h flags instance args positional_flags
              show_window_flags intl)) =
    (if error_code_bool (SetDefaultDllDirectories h 0xC00) then 1 else 0)%nat /\
  completion (BootmgrStartup (with_dll_directories h rc) flags instance args
                positional_flags show_window_flags intl) =
    completion (BootmgrStartup h flags instance args positional_flags
                  show_window_flags intl) /\
  loads (trace (BootmgrStartup (with_dll_directories h rc) flags instance args
                  positional_flags show_window_flags intl)) =
    loads (trace (BootmgrStartup h flags instance args positional_flags
                    show_window_flags intl)) /\
  fatal_dialogs
    (trace (BootmgrStartup (with_dll_directories h rc) flags instance args
              positional_flags show_window_flags intl)) =
    fatal_dialogs
      (trace (BootmgrStartup h flags instance args positional_flags
                show_window_flags intl)).
Proof.
  unfold BootmgrStartup, G3PLOGE_IF, G3LOG_IF.
  cbn [with_dll_directories GetApplicationDirectory FromLibraryOnPath
       GetAddressAs SetDefaultDllDirectories
       WB_PRODUCT_FILE_DESCRIPTION_STRING WB_HALF_LIFE_2_IDI_MAIN_ICON
       WB_HALF_LIFE_2_IDI_SMALL_ICON].
  change (Z.lor LOAD_LIBRARY_SEARCH_SYSTEM32 LOAD_LIBRARY_SEARCH_USER_DIRS)
    with 0xC00.
  destruct (GetApplicationDirectory h instance) as [p|e].
  - cbn.
    match goal with |- context [FromLibraryOnPath h ?x ?y] =>
      destruct (FromLibraryOnPath h x y) as [lib|e] end.
    + cbn. destruct (GetAddressAs h lib kBootManagerMainName) as [f|e];
        destruct (error_code_bool (SetDefaultDllDirectories h 0xC00)),
          (error_code_bool rc);
        repeat split; eexists; reflexivity.
    + destruct (error_code_bool (SetDefaultDllDirectories h 0xC00)),
        (error_code_bool rc); repeat split; eexists; reflexivity.
  - destruct (error_code_bool (SetDefaultDllDirectories h 0xC00)),
      (error_code_bool rc); repeat split; eexists; reflexivity.
Qed.

(** X11.  When the application directory cannot be found, [BootmgrStartup]
    never gets to the loader: no module is asked for, no symbol looked up,
    nothing called, and the one fatal dialog carries the error of the
    directory lookup. *)
Theorem no_application_directory_no_load
    (h : Host) (flags : Flags) (instance : Z)
    (args positional_flags : list string) (show_window_flags : Z)
    (intl : LookupWithFallback) (error : error_code) :
  GetApplicationDirectory h instance = Err error ->
  completion (BootmgrStartup h flags instance args positional_flags
                show_window_flags intl) = Terminated /\
  loads (trace (BootmgrStartup h flags instance args positional_flags
                  show_window_flags intl)) = [] /\
  existsb is_get_address
    (trace (BootmgrStartup h flags instance args positional_flags
              show_window_flags intl)) = false /\
  entry_calls (trace (BootmgrStartup h flags instance args positional_flags
                        show_window_flags intl)) = [] /\
  fatal_dialogs (trace (BootmgrStartup h flags instance args positional_flags
                          show_window_flags intl)) =
    [fatal_payload h intl error
       (l18n intl ("Can't get current directory.  May be app " +:+
                   "located too deep (> 1024)?"))].
Proof.
  intros Hdir. rewrite (BootmgrStartup_no_directory _ _ _ _ _ _ _ _ Hdir).
  destruct (hardening_quiet h) as (Hl & Hf & Hg & _).
  destruct (hardening_calls_nothing h) as (Hc & _ & _).
  cbn [trace completion fst snd].
  rewrite loads_app, existsb_app, entry_calls_app, fatal_dialogs_app,
    Hl, Hf, Hg, Hc.
  repeat split.
Qed.

Lemma no_application_directory_no_load_witness :
  loads (trace (BootmgrStartup
                  (with_application_directory (host signed_module "hl2.exe")
                     (Err (win32_error 206)))
                  default_flags 4194304 ["hl2.exe"] [] 5 (fun s => s))) = [].
Proof.
  apply (no_application_directory_no_load
           (with_application_directory (host signed_module "hl2.exe")
              (Err (win32_error 206)))
           default_flags 4194304 ["hl2.exe"] [] 5 (fun s => s)
           (win32_error 206) eq_refl).
Defined.

(** X12.  What the entry point is called with is what the launcher itself
    went by: the command line arguments and their count, the positional
    flags, and the override flag with the very value that decided whether
    the load asked for a signed target. *)
Theorem entry_point_sees_the_launchers_flags
    (h : Host) (flags : Flags) (instance : Z)
    (args positional_flags : list string) (show_window_flags : Z)
    (intl : LookupWithFallback) :
  Forall
    (fun a : BootManagerArgs =>
       args_values a = args /\
       args_count a = Z.of_nat (length args) /\
       Sys.positional_flags (command_line_flags a) = positional_flags /\
       insecure_allow_unsigned_module_target (command_line_flags a) =
         FLAGS_insecure_allow_unsigned_module_target flags /\
       Forall (fun pf : string * Z =>
                 requires_signed_target (snd pf) =
                 negb (insecure_allow_unsigned_module_target
                         (command_line_flags a)))
              (loads (trace (BootmgrStartup h flags instance args
                               positional_flags show_window_flags intl))))
    (entry_calls (trace (BootmgrStartup h flags instance args positional_flags
                           show_window_flags intl))).
Proof.
  pose proof (load_flags_follow_override h flags instance args
                positional_flags show_window_flags intl) as Hloads.
  destruct (BootmgrStartup_entry_calls h flags instance args
              positional_flags show_window_flags intl) as [-> | ->].
  - constructor; [|constructor]. repeat split. exact Hloads.
  - constructor.
Qed.

End LauncherExtras.

Section WinMainExtras.
Import Cxx G3Log Sys Launcher TraceReading HostVariants TestHost.

(** X13.  [CreateIntl] falls back to the fallback locale, with a warning,
    exactly when the UTF-8 locale could not be set; it asks for the lookup
    of the locale it settled on; and when that lookup cannot be made the
    process ends on a FATAL log line, without a fatal dialog. *)
Theorem CreateIntl_falls_back_or_ends (h : Host) :
  user_locale h =
    match GetCurrentLocale h with
    | Some locale => locale
    | None => kFallbackLocale h
    end /\
  completion (CreateIntl h) =
    match LookupWithFallback_New h (user_locale h) with
    | Some intl => Returns intl
    | None => Terminated
    end /\
  count is_warning_log (trace (CreateIntl h)) =
    match GetCurrentLocale h with Some _ => 0 | None => 1 end%nat /\
  fatal_dialogs (trace (CreateIntl h)) = [] /\
  loads (trace (CreateIntl h)) = [].
Proof.
  unfold CreateIntl, user_locale.
  destruct (GetCurrentLocale h) as [locale|]; cbn;
    destruct (LookupWithFallback_New h _); repeat split.
Qed.

(** X14.  When the command line cannot be split into arguments, [WinMain]
    shows one fatal dialog with the error and ends: the flags are never
    parsed, the library search order is not touched, no module is asked
    for and nothing is called. *)
Theorem unparsable_command_line_stops_launch
    (build : Build) (h : Host) (instance show_window_flags : Z)
    (intl : LookupWithFallback) (error : error_code) :
  LookupWithFallback_New h (user_locale h) = Some intl ->
  FromCommandLine h (full_command_line build h) = Err error ->
  completion (WinMain build h instance show_window_flags) = Terminated /\
  fatal_dialogs (trace (WinMain build h instance show_window_flags)) =
    [ {| title := err_title h intl;
         rc := Some error;
         remediation :=
           l18n intl ("Please ensure you have enough free memory and use " +:+
                      "command line correctly.");
         context := MakeFatalContext h intl;
         detail :=
           l18n intl "Can't parse command line flags.  See log for details."
      |} ] /\
  count is_hardening (trace (WinMain build h instance show_window_flags)) =
    0%nat /\
  loads (trace (WinMain build h instance show_window_flags)) = [] /\
  entry_calls (trace (WinMain build h instance show_window_flags)) = [].
Proof.
  intros Hintl Hargs. unfold WinMain, CreateIntl. fold (user_locale h).
  rewrite Hintl. cbn. rewrite Hargs. cbn.
  destruct (negb (bool_decide (is_Some (GetCurrentLocale h)))); repeat split.
Qed.

Lemma unparsable_command_line_witness :
  completion
    (WinMain Release
       (with_command_line_reader (host signed_module "hl2.exe")
          (Err (win32_error 8)))
       4194304 5) = Terminated /\
  loads (trace
    (WinMain Release
       (with_command_line_reader (host signed_module "hl2.exe")
          (Err (win32_error 8)))
       4194304 5)) = [].
Proof.
  destruct (unparsable_command_line_stops_launch Release
              (with_command_line_reader (host signed_module "hl2.exe")
                 (Err (win32_error 8)))
              4194304 5 (fun s => s) (win32_error 8) eq_refl eq_refl)
    as (Hend & _ & _ & Hloads & _).
  split; assumption.
Defined.

Lemma BootmgrStartup_ignores_initializers (h : Host)
    (a b c d : option error_code) (flags : Flags) (instance : Z)
    (args positional_flags : list string) (show_window_flags : Z)
    (intl : LookupWithFallback) :
  BootmgrStartup (with_initializers h a b c d) flags instance args
    positional_flags show_window_flags intl =
  BootmgrStartup h flags instance args positional_flags show_window_flags
    intl.
Proof. reflexivity. Qed.

Lemma G3PLOGE_IF_no_loads (lvl : Level) (r : option error_code)
    (txt : string) :
  loads (trace (G3PLOGE_IF lvl r txt)) = [].
Proof.
  unfold G3PLOGE_IF, G3LOG_IF.
  destruct (match r with Some e => error_code_bool e | None => false end);
    reflexivity.
Qed.

Lemma G3PLOGE_IF_no_dialogs (lvl : Level) (r : option error_code)
    (txt : string) :
  fatal_dialogs (trace (G3PLOGE_IF lvl r txt)) = [].
Proof.
  unfold G3PLOGE_IF, G3LOG_IF.
  destruct (match r with Some e => error_code_bool e | None => false end);
    reflexivity.
Qed.

Lemma G3PLOGE_IF_no_calls (lvl : Level) (r : option error_code)
    (txt : string) :
  entry_calls (trace (G3PLOGE_IF lvl r txt)) = [].
Proof.
  unfold G3PLOGE_IF, G3LOG_IF.
  destruct (match r with Some e => error_code_bool e | None => false end);
    reflexivity.
Qed.

(** X15.  [WinMain] sets up logging before anything else, on the command
    line the rest of the function will use.  The thread error mode and the
    three COM settings are optional: whatever they answer, the result of
    [WinMain], the loads it attempts, the fatal dialogs it shows and the
    calls of the entry point are the same. *)
Theorem optional_initializers_only_log
    (build : Build) (h : Host) (instance show_window_flags : Z)
    (a b c d : option error_code) :
  (exists rest : list Event,
      trace (WinMain build h instance show_window_flags) =
      EvInitLog (full_command_line build h) (kPathToMainLogFile h) :: rest) /\
  completion (WinMain build (with_initializers h a b c d) instance
                show_window_flags) =
    completion (WinMain build h instance show_window_flags) /\
  loads (trace (WinMain build (with_initializers h a b c d) instance
                  show_window_flags)) =
    loads (trace (WinMain build h instance show_window_flags)) /\
  fatal_dialogs (trace (WinMain build (with_initializers h a b c d) instance
                          show_window_flags)) =
    fatal_dialogs (trace (WinMain build h instance show_window_flags)) /\
  entry_calls (trace (WinMain build (with_initializers h a b c d) instance
                        show_window_flags)) =
    entry_calls (trace (WinMain build h instance show_window_flags)).
Proof.
  split; [eexists; reflexivity|].
  unfold WinMain, CreateIntl.
  change (full_command_line build (with_initializers h a b c d))
    with (full_command_line build h).
  cbn [with_initializers kPathToMainLogFile GetCurrentLocale kFallbackLocale
       kUtf8Locale WB_PRODUCT_FILE_DESCRIPTION_STRING LookupWithFallback_New
       FromCommandLine ParseCommandLine ScopedThreadErrorMode_New
       ScopedThreadComInitializer_New ScopedComFatalExceptionHandler_New
       ScopedComStrongUnmarshallingPolicy_New].
  destruct (LookupWithFallback_New h _) as [intl|];
    [|cbn; repeat split].
  destruct (FromCommandLine h (full_command_line build h)) as [args|e];
    [|cbn; repeat split].
  cbn -[BootmgrStartup G3PLOGE_IF].
  destruct (ParseCommandLine h args default_flags) as [pos fl].
  cbn -[BootmgrStartup G3PLOGE_IF].
  rewrite BootmgrStartup_ignores_initializers.
  rewrite !then_returns by reflexivity.
  cbn [trace completion fst snd].
  repeat match goal with
  | |- context [?e :: (trace ?m ++ ?x)] =>
      change (e :: (trace m ++ x)) with ([e] ++ (trace m ++ x))
  end.
  rewrite !loads_app, !fatal_dialogs_app, !entry_calls_app.
  rewrite !G3PLOGE_IF_no_loads, !G3PLOGE_IF_no_dialogs, !G3PLOGE_IF_no_calls.
  repeat split.
Qed.

End WinMainExtras.

(** ** The Mac launcher, beyond the claims *)

Section MacLauncherExtras.
Import Cxx G3Log Sys MacLauncher TraceReading.

Lemma string_length_app (a b : string) :
  String.length (a +:+ b) = (String.length a + String.length b)%nat.
Proof.
  induction a as [|c a IH]; [reflexivity|].
  change (S (String.length (a +:+ b)) =
          S (String.length a + String.length b)%nat).
  rewrite IH. reflexivity.
Qed.

Lemma string_app_assoc (a b c : string) : (a +:+ b) +:+ c = a +:+ (b +:+ c).
Proof.
  induction a as [|x a IH]; [reflexivity|].
  change (String x ((a +:+ b) +:+ c) = String x (a +:+ (b +:+ c))).
  rewrite IH. reflexivity.
Qed.

Lemma substring_prefix (a b : string) :
  String.substring 0 (String.length a) (a +:+ b) = a.
Proof.
  induction a as [|c a IH].
  - destruct b; reflexivity.
  - change (String c (String.substring 0 (String.length a) (a +:+ b)) =
            String c a).
    rewrite IH. reflexivity.
Qed.

(** X16.  The path the Mac launcher hands to the loader is the parent
    directory, a slash and the relative framework path, and stops there:
    the buffer is sized for these two parts, so the file name of the boot
    manager library that the format appends is always cut off. *)
Theorem framework_path_drops_library_name (h : Host) (parent_dir : string) :
  framework_path h parent_dir = parent_dir +:+ "/" +:+ rel_path h.
Proof.
  unfold framework_path, snprintf_paths.
  set (lib := "libwhitebox-boot-manager." +:+ _).
  replace (parent_dir +:+ "/" +:+ rel_path h +:+ "/" +:+ lib)
    with ((parent_dir +:+ "/" +:+ rel_path h) +:+ ("/" +:+ lib))
    by (rewrite !string_app_assoc; reflexivity).
  replace (String.length parent_dir + String.length (rel_path h) + 2 - 1)%nat
    with (String.length (parent_dir +:+ "/" +:+ rel_path h)).
  - apply substring_prefix.
  - rewrite !string_length_app. cbn [String.length]. lia.
Qed.

(** X17.  The Mac [main] never returns to its caller: it ends in [exit] or
    in a fatal report.  It reaches [exit] exactly when the executable path,
    its directory, the library and the entry symbol were all found: then
    the entry point is called once, its value is handed to [exit] as it
    is, the status of the process is the low eight bits of that value and
    nothing is reported; in every other case there is one fatal report,
    no [exit] and no call of the entry point. *)
Theorem mac_main_exits_or_reports (h : Host) (argc : Z) (argv : list string) :
  completion (main h argc argv) = Terminated /\
  (forall entry : BootManagerMainFunction,
      reaches_entry h entry ->
      last (trace (main h argc argv)) = Some (EvExit (entry argc argv)) /\
      Process.exit_status (main h argc argv) =
        Some (Process.WEXITSTATUS (entry argc argv)) /\
      count is_invoke (trace (main h argc argv)) = 1%nat /\
      count is_sdl_fatal (trace (main h argc argv)) = 0%nat) /\
  match Process.exit_status (main h argc argv) with
  | Some status =>
      exists entry : BootManagerMainFunction,
        reaches_entry h entry /\
        status = Process.WEXITSTATUS (entry argc argv)
  | None =>
      (forall entry : BootManagerMainFunction, ~ reaches_entry h entry) /\
      count is_sdl_fatal (trace (main h argc argv)) = 1%nat /\
      existsb is_invoke (trace (main h argc argv)) = false
  end.
Proof.
  split; [|split].
  - unfold main.
    destruct (NSGetExecutablePath_size h) as [rv size].
    destruct (rv =? -1); cbn; [|reflexivity].
    destruct (NSGetExecutablePath h size) as [rv2 exec_path].
    destruct (rv2 =? 0); cbn; [|reflexivity].
    destruct (dirname h exec_path) as [parent_dir|]; cbn; [|reflexivity].
    destruct (FromLibraryOnPath h (framework_path h parent_dir) load_flags)
      as [lib|e]; cbn; [|reflexivity].
    destruct (GetAddressAs h lib kBootManagerMainFunctionName);
      reflexivity.
  - intros entry Hentry.
    destruct (mac_main_reaches_entry h argc argv entry Hentry) as [path ->].
    repeat split.
  - unfold main, reaches_entry.
    destruct (NSGetExecutablePath_size h) as [rv size] eqn:Hsz.
    destruct (Z.eqb_spec rv (-1)) as [->|Hrv]; cbn; cycle 1.
    { repeat split. intros entry (s & p & d & l & [= E _] & _). congruence. }
    destruct (NSGetExecutablePath h size) as [rv2 exec_path] eqn:Hpath.
    destruct (Z.eqb_spec rv2 0) as [->|Hrv2]; cbn; cycle 1.
    { repeat split. intros entry (s & p & d & l & [= <-] & Hp & _).
      rewrite Hpath in Hp. congruence. }
    destruct (dirname h exec_path) as [parent_dir|] eqn:Hdir; cbn; cycle 1.
    { repeat split. intros entry (s & p & d & l & [= <-] & Hp & Hd & _).
      rewrite Hpath in Hp. injection Hp as <-. congruence. }
    destruct (FromLibraryOnPath h (framework_path h parent_dir) load_flags)
      as [lib|e] eqn:Hload; cbn; cycle 1.
    { repeat split.
      intros entry (s & p & d & l & [= <-] & Hp & Hd & Hl & _).
      rewrite Hpath in Hp. injection Hp as <-.
      rewrite Hdir in Hd. injection Hd as <-. congruence. }
    destruct (GetAddressAs h lib kBootManagerMainFunctionName)
      as [entry|e] eqn:Hget; cbn; cycle 1.
    { repeat split.
      intros entry (s & p & d & l & [= <-] & Hp & Hd & Hl & Hg).
      rewrite Hpath in Hp. injection Hp as <-.
      rewrite Hdir in Hd. injection Hd as <-.
      rewrite Hload in Hl. injection Hl as <-. congruence. }
    exists entry. split; [|reflexivity].
    exists size, exec_path, parent_dir, lib. repeat split; assumption.
Qed.

End MacLauncherExtras.

(** ** [ScopedComStrongUnmarshallingPolicy] *)

Section ComPolicyExtras.
Import Cxx ComPolicy.

(** X18.  On a COM runtime that behaves, a [ScopedComStrongUnmarshallingPolicy]
    leaves the unmarshalling policy as it found it: whenever the constructor
    and the destructor both come back, the policy after the destructor is
    the policy before the constructor, also when creating the options
    object, the query or the setting failed.  In between the policy is the
    strong one if the constructor reported no error, and untouched if it
    reported one. *)
Theorem com_policy_restored {S : Type} (com : GlobalOptions S)
    (policy : S -> Z) (build : Launcher.Build) (s s1 s2 : S)
    (this : ScopedComStrongUnmarshallingPolicy) :
  lawful com policy ->
  construct build com s = Some (this, s1) ->
  destroy com this s1 = Some s2 ->
  policy s2 = policy s /\
  (error_code_bool (error_code_ this) = false ->
   policy s1 = COMGLB_UNMARSHALING_POLICY_STRONG) /\
  (error_code_bool (error_code_ this) = true ->
   policy s1 = policy s /\ s2 = s1).
Proof.
  intros (Hcreate & Hquery & Hset). unfold construct, destroy.
  specialize (Hcreate s).
  destruct (CreateInstance com s) as [rc0 sa]. cbn [snd] in Hcreate.
  destruct (error_code_bool rc0) eqn:E0; cbn [negb andb]; rewrite ?E0;
    cbn [negb andb].
  - destruct build; rewrite ?E0; [discriminate|].
    intros [= <- <-].
    cbn [error_code_ old_global_unmarshalling_policy_option_value_].
    rewrite E0. cbn [negb andb]. intros [= <-].
    repeat split; congruence.
  - destruct (Hquery sa) as [Hq1 Hq2].
    destruct (Query com sa) as [[rc1 old] sb]. cbn [fst snd] in Hq1, Hq2.
    destruct (error_code_bool rc1) eqn:E1; cbn [negb andb]; rewrite ?E1;
      cbn [negb andb].
    + destruct build; rewrite ?E1; [discriminate|].
      intros [= <- <-].
      cbn [error_code_ old_global_unmarshalling_policy_option_value_].
      rewrite E1. cbn [negb andb]. intros [= <-].
      repeat split; congruence.
    + specialize (Hq2 eq_refl).
      destruct (old =? COMGLB_UNMARSHALING_POLICY_STRONG) eqn:Es;
        cbn [negb andb].
      * assert (Hold : old = COMGLB_UNMARSHALING_POLICY_STRONG)
          by (apply Z.eqb_eq; exact Es).
        destruct build; rewrite ?E1; intros [= <- <-];
          cbn [error_code_ old_global_unmarshalling_policy_option_value_];
          rewrite E1, Es; cbn [negb andb]; intros [= <-];
          repeat split; congruence.
      * specialize (Hset COMGLB_UNMARSHALING_POLICY_STRONG sb) as Hs1.
        destruct (Set_ com COMGLB_UNMARSHALING_POLICY_STRONG sb) as [rc2 sc].
        cbn [fst snd] in Hs1.
        destruct (error_code_bool rc2) eqn:E2.
        -- destruct build; [discriminate|].
           intros [= <- <-].
           cbn [error_code_ old_global_unmarshalling_policy_option_value_].
           rewrite E2. cbn [negb andb]. intros [= <-].
           repeat split; congruence.
        -- specialize (Hset old sc) as Hs2.
           destruct build; intros [= <- <-];
             cbn [error_code_ old_global_unmarshalling_policy_option_value_];
             rewrite E2, Es; cbn [negb andb];
             destruct (Set_ com old sc) as [rc3 sd]; cbn [fst snd] in Hs2;
             (destruct (error_code_bool rc3); [discriminate|]);
             intros [= <-]; repeat split; congruence.
Qed.

Lemma com_policy_restored_witness :
  exists (this : ScopedComStrongUnmarshallingPolicy) (s1 : Z),
    construct Launcher.Release plain 1 = Some (this, s1) /\
    s1 = COMGLB_UNMARSHALING_POLICY_STRONG /\
    destroy plain this s1 = Some 1.
Proof.
  exists {| error_code_ := {| value := 0; category := "system" |};
            old_global_unmarshalling_policy_option_value_ := 1 |}, 2.
  assert (Hlaw : lawful plain (fun s => s)).
  { repeat split; intros; reflexivity. }
  destruct (com_policy_restored plain (fun s => s) Launcher.Release 1 2 1
              {| error_code_ := {| value := 0; category := "system" |};
                 old_global_unmarshalling_policy_option_value_ := 1 |}
              Hlaw eq_refl eq_refl) as (_ & Hstrong & _).
  split; [reflexivity|]. split; [apply Hstrong; reflexivity | reflexivity].
Defined.

End ComPolicyExtras.

(** ** [SdlWindow] *)

Section SdlWindowExtras.
Import SdlWindowLife.

Lemma move_chain_conserves (n : nat) (w : SdlWindow) :
  concat (map destroy (fst (move_chain n w))) = [] /\
  destroy (snd (move_chain n w)) = destroy w.
Proof.
  revert w. induction n as [|n IH]; intros w; [split; reflexivity|].
  cbn [move_chain move_construct].
  match goal with |- context [move_chain n ?w'] =>
    destruct (IH w') as [IH1 IH2]; destruct (move_chain n w') as [husks final]
  end.
  cbn [fst snd map concat] in *. rewrite IH1, IH2. split; reflexivity.
Qed.

(** X19.  A window made by [SdlWindow::New] is destroyed exactly once,
    however often the object that holds it is moved: [New] itself destroys
    nothing, the objects moved from destroy nothing, and the last holder
    destroys the window.  When [SDL_CreateWindow] gives no window, [New]
    answers with the return code -1 and nothing is destroyed; a debug build
    stops in the constructor instead. *)
Theorem window_destroyed_exactly_once (build : Launcher.Build)
    (created : option Z) (flags : Z) (n : nat) :
  match created with
  | Some window =>
      exists w : SdlWindow,
        New build created flags = Some (inl w, []) /\
        concat (map destroy (fst (move_chain n w))) ++
        destroy (snd (move_chain n w)) = [window]
  | None =>
      New build created flags =
      match build with
      | Launcher.Debug => None
      | Launcher.Release => Some (inr (-1), [])
      end
  end.
Proof.
  destruct created as [window|]; [|destruct build; reflexivity].
  exists {| window_ := Some window; init_rc_ := None; flags_ := flags |}.
  split; [destruct build; reflexivity|].
  match goal with |- context [move_chain n ?w] =>
    destruct (move_chain_conserves n w) as [-> ->] end.
  reflexivity.
Qed.

End SdlWindowExtras.

(** ** [WideToAnsi] and [AnsiToWide] *)

Section CStringExtExtras.
Import CStringExt.

Lemma store_length (stored buffer : list Z) :
  length (store stored buffer) = length buffer.
Proof.
  unfold store. rewrite length_take, length_app, length_drop. lia.
Qed.

Lemma convert_length (build : Launcher.Build) (crt : Converter)
    (in_ out : list Z) :
  convert build crt in_ = Some out -> length out = S (length in_).
Proof.
  unfold convert. destruct (crt in_ _ _) as [rc stored].
  assert (H : length (store stored (replicate (S (length in_)) 0)) =
              S (length in_)).
  { rewrite store_length, length_replicate. reflexivity. }
  destruct build; [destruct (rc =? 0); [|discriminate]|];
    intros [= <-]; exact H.
Qed.

(** X20.  Whatever the conversion routine of the C runtime stores, the text
    [WideToAnsi] returns is one character longer than its input, and so is
    the text [AnsiToWide] returns: the place of the final NUL counts as a
    character of the result.  Converting there and back therefore never
    gives back the input, but a text two characters longer. *)
Theorem conversions_grow_by_one (build : Launcher.Build)
    (wcstombs_s mbstowcs_s : Converter) (in_ ansi wide : list Z) :
  WideToAnsi build wcstombs_s in_ = Some ansi ->
  AnsiToWide build mbstowcs_s ansi = Some wide ->
  length ansi = S (length in_) /\
  length wide = S (S (length in_)) /\
  wide <> in_.
Proof.
  unfold WideToAnsi, AnsiToWide. intros H1 H2.
  apply convert_length in H1. apply convert_length in H2.
  rewrite H1 in H2. repeat split; try assumption.
  intros ->. lia.
Qed.

Lemma conversions_grow_by_one_witness :
  WideToAnsi Launcher.Debug c_locale [104; 105] = Some [104; 105; 0] /\
  AnsiToWide Launcher.Debug c_locale [104; 105; 0] = Some [104; 105; 0; 0] /\
  length [104; 105; 0; 0] = 4%nat.
Proof.
  destruct (conversions_grow_by_one Launcher.Debug c_locale c_locale
              [104; 105] [104; 105; 0] [104; 105; 0; 0] eq_refl eq_refl)
    as (_ & Hlen & _).
  split; [reflexivity|]. split; [reflexivity | exact Hlen].
Defined.

End CStringExtExtras.

(** ** [to_string] of the mouse flags *)

Section MouseExtras.
Import Mouse.

Lemma add_if_short (f a : Z) (x r : string) (n : nat) :
  (n <= String.length x)%nat ->
  (String.length (add_if f a x r) < n)%nat ->
  has f a = false /\ add_if f a x r = r.
Proof.
  unfold add_if. destruct (has f a); [|auto].
  rewrite string_length_app. lia.
Qed.

Lemma add_either_short (f a b : Z) (x y r : string) (n : nat) :
  (n <= String.length x)%nat -> (n <= String.length y)%nat ->
  (String.length (add_either f a b x y r) < n)%nat ->
  has f a = false /\ has f b = false /\ add_either f a b x y r = r.
Proof.
  unfold add_either. destruct (has f a); [rewrite string_length_app; lia|].
  destruct (has f b); [rewrite string_length_app; lia|auto].
Qed.

Lemma add_if_prefix (f a : Z) (x p r : string) :
  add_if f a x (p +:+ r) = p +:+ add_if f a x r.
Proof.
  unfold add_if. destruct (has f a); [apply string_app_assoc|reflexivity].
Qed.

Lemma add_either_prefix (f a b : Z) (x y p r : string) :
  add_either f a b x y (p +:+ r) = p +:+ add_either f a b x y r.
Proof.
  unfold add_either.
  destruct (has f a); [apply string_app_assoc|].
  destruct (has f b); [apply string_app_assoc|reflexivity].
Qed.

(** What [to_string(MouseButtonTransitionState)] has put together before it
    looks at the size. *)
Lemma buttons_short (f : Z) (r : string) :
  r = add_if f kHorizontalWheel "Horizontal Wheel "
        (add_if f kVerticalWheel "Vertical Wheel "
           (add_either f kXButton2Down kXButton2Up "X2 Down " "X2 Up "
              (add_either f kXButton1Down kXButton1Up "X1 Down " "X1 Up "
                 (add_either f kMiddleButtonDown kMiddleButtonUp
                    "Middle Down " "Middle Up "
                    (add_either f kRightButtonDown kRightButtonUp
                       "Right Down " "Right Up "
                       (add_either f kLeftButtonDown kLeftButtonUp
                          "Left Down" "Left Up" "")))))) ->
  (String.length r < 6)%nat ->
  none_of button_flags_read f = true /\ r = "".
Proof.
  intros -> Hlen.
  pose proof Hlen as H.
  apply add_if_short in H as [h12 E]; [|cbn; lia].
  rewrite E in Hlen |- *. clear E. pose proof Hlen as H.
  apply add_if_short in H as [h11 E]; [|cbn; lia].
  rewrite E in Hlen |- *. clear E. pose proof Hlen as H.
  apply add_either_short in H as (h9 & h10 & E); [|cbn; lia..].
  rewrite E in Hlen |- *. clear E. pose proof Hlen as H.
  apply add_either_short in H as (h7 & h8 & E); [|cbn; lia..].
  rewrite E in Hlen |- *. clear E. pose proof Hlen as H.
  apply add_either_short in H as (h5 & h6 & E); [|cbn; lia..].
  rewrite E in Hlen |- *. clear E. pose proof Hlen as H.
  apply add_either_short in H as (h3 & h4 & E); [|cbn; lia..].
  rewrite E in Hlen |- *. clear E. pose proof Hlen as H.
  apply add_either_short in H as (h1 & h2 & E); [|cbn; lia..].
  rewrite E. unfold none_of, button_flags_read. cbn [forallb].
  rewrite h1, h2, h3, h4, h5, h6, h7, h8, h9, h10, h11, h12.
  split; reflexivity.
Qed.

Lemma none_of_cons (flag : Z) (read : list Z) (f : Z) :
  none_of (flag :: read) f = true <->
  has f flag = false /\ none_of read f = true.
Proof.
  unfold none_of. cbn [forallb]. rewrite andb_true_iff, negb_true_iff.
  reflexivity.
Qed.

(** X21.  [to_string(MouseStateFlags)] is the empty text exactly when none
    of the five flags it looks at is in the value; the relative flag wins
    over the absolute one when both are set; and without either of them
    the text of a virtual-desktop state starts with the separator. *)
Theorem mouse_state_text (state_flags : Z) :
  (to_string_state state_flags = "" <->
   none_of state_flags_read state_flags = true) /\
  (has state_flags kMoveRelative = true ->
   exists rest, to_string_state state_flags = "Relative" +:+ rest) /\
  (has state_flags kMoveRelative = false ->
   has state_flags kMoveAbsolute = false ->
   has state_flags kVirtualDesktop = true ->
   exists rest, to_string_state state_flags = "| Virtual Desktop" +:+ rest).
Proof.
  unfold to_string_state, add_either, add_if, none_of, state_flags_read.
  cbn [forallb].
  destruct (has state_flags kMoveRelative),
           (has state_flags kMoveAbsolute),
           (has state_flags kVirtualDesktop),
           (has state_flags kMouseAttributesChanged),
           (has state_flags kMouseMoveNoCoalesce);
    cbn; (split; [split; intros H; first [discriminate H | reflexivity]|]);
    (split; intros; first [discriminate | eexists; reflexivity]).
Qed.

(** X22.  [to_string(MouseButtonTransitionState)] is "None" exactly when
    none of the twelve flags it looks at is in the value, and it is never
    the empty text.  The text for the left button has no blank at its end,
    so with a left and a right press it runs into the next one. *)
Theorem mouse_buttons_text (state_flags : Z) :
  (to_string_buttons state_flags = "None" <->
   none_of button_flags_read state_flags = true) /\
  to_string_buttons state_flags <> "" /\
  (has state_flags kLeftButtonDown = true ->
   has state_flags kRightButtonDown = true ->
   exists rest,
     to_string_buttons state_flags = "Left DownRight Down " +:+ rest).
Proof.
  unfold to_string_buttons. cbv zeta.
  match goal with |- context [String.length ?r] =>
    pose proof (buttons_short state_flags r eq_refl) as Hshort;
    remember r as result eqn:Hresult
  end.
  destruct (0 <? String.length result)%nat eqn:Hsize.
  - apply Nat.ltb_lt in Hsize. split; [split|split].
    + intros ->. cbn in Hshort.
      destruct Hshort as [_ Hempty]; [lia|discriminate Hempty].
    + intros Hnone. exfalso.
      unfold button_flags_read in Hnone.
      repeat (apply none_of_cons in Hnone as [?h Hnone]).
      unfold add_either, add_if in Hresult.
      repeat match goal with H : has _ _ = false |- _ =>
        rewrite H in Hresult; clear H end.
      subst result. cbn in Hsize. lia.
    + intros ->. cbn in Hsize. lia.
    + intros Hleft Hright. subst result.
      unfold add_either at 4 5. rewrite Hleft, Hright.
      change (("" +:+ "Left Down") +:+ "Right Down ")
        with ("Left DownRight Down " +:+ "").
      rewrite !add_either_prefix, !add_if_prefix. eexists. reflexivity.
  - apply Nat.ltb_ge in Hsize. split; [split|split].
    + intros _. apply Hshort. lia.
    + reflexivity.
    + discriminate.
    + intros Hleft Hright. exfalso. subst result.
      unfold add_either at 4 5 in Hsize. rewrite Hleft, Hright in Hsize.
      change (("" +:+ "Left Down") +:+ "Right Down ")
        with ("Left DownRight Down " +:+ "") in Hsize.
      rewrite !add_either_prefix, !add_if_prefix, string_length_app in Hsize.
      cbn in Hsize. lia.
Qed.

End MouseExtras.
